(** * The optimiser service's response pipeline (src/main.py)

    A shallow embedding of [extract_json], [normalize_suggestions],
    [normalize_metrics], the [/optimize] handler, [call_ollama] and
    [ping], together with the parts of the Python runtime they call
    ([str.strip], [re.sub] on the two fence patterns, [str.find],
    [str.count], [json.loads], [json.dumps], [str], [str.format] on the
    prompt template).

    Conventions.
    - A Python [str] is a sequence of Unicode code points: [str := list N].
    - A raised exception is the [Raise] branch of [result].
    - A decoded JSON document is the tagged union [json]; a [dict] keeps
      insertion order, so it is an association list with distinct keys.
    - The handler starts from the decoded body of the request (what
      [request.get_json] returned) and ends with the value it hands to
      [jsonify] and the status.
    - The runtime is CPython 3.11: the messages and positions of
      [json.JSONDecodeError], the Unicode white space of [str.strip], the
      shortest [repr] of a float.
    - [print] calls only write to the console and are left out.
    - The exchange with the model server ([requests.post] and the decoding
      of its reply) is a parameter of [call_ollama]. *)

From Stdlib Require Import String Ascii DecimalString.
From Stdlib Require Import ZArith NArith Lia Bool List.
From Stdlib Require DecimalPos DecimalZ.
Import ListNotations.

(* ===================================================================== *)
(** * Python strings *)
(* ===================================================================== *)

Module PyStr.

Definition char := N.
Definition str := list char.

(** A literal of the Python source: every character of it is ASCII, so
    its code points are its bytes. *)
Definition lit (s : string) : str :=
  List.map N_of_ascii (list_ascii_of_string s).

Definition QUOTE : char := 34%N.       (* the double quote *)
Definition BACKSLASH : char := 92%N.
Definition LBRACE : char := 123%N.     (* { *)
Definition RBRACE : char := 125%N.     (* } *)
Definition NEWLINE : char := 10%N.

(** [jlit] writes a text that holds double quotes: each apostrophe of the
    literal stands for a double quote. *)
Definition jlit (s : string) : str :=
  List.map (fun c => if N.eqb c 39 then QUOTE else c) (lit s).

Fixpoint str_eqb (a b : str) : bool :=
  match a, b with
  | [], [] => true
  | x :: a', y :: b' => N.eqb x y && str_eqb a' b'
  | _, _ => false
  end.

(** [str.isspace] on one code point (the Unicode White_Space and
    bidirectional-separator characters CPython tests for). *)
Definition isspace (c : char) : bool :=
  ((9 <=? c) && (c <=? 13) || (28 <=? c) && (c <=? 32)
   || (c =? 133) || (c =? 160) || (c =? 5760)
   || (8192 <=? c) && (c <=? 8202)
   || (c =? 8232) || (c =? 8233) || (c =? 8239) || (c =? 8287)
   || (c =? 12288))%N.

Fixpoint lstrip (s : str) : str :=
  match s with
  | c :: r => if isspace c then lstrip r else s
  | [] => []
  end.

Definition rstrip (s : str) : str := rev (lstrip (rev s)).

(** [s.strip()] *)
Definition strip (s : str) : str := rstrip (lstrip s).

(** [s.startswith(p)] *)
Fixpoint startswith (p s : str) : bool :=
  match p, s with
  | [], _ => true
  | x :: p', y :: s' => N.eqb x y && startswith p' s'
  | _ :: _, [] => false
  end.

(** [s.endswith(p)] *)
Definition endswith (p s : str) : bool := startswith (rev p) (rev s).

(** [s[a:b]] for [0 <= a] and [0 <= b]. *)
Definition slice (s : str) (a b : nat) : str := firstn (b - a) (skipn a s).

(** [s.find(c)] for a one-character [c]: the least index holding [c], or
    [-1]. *)
Fixpoint find_from (c : char) (s : str) (i : Z) : Z :=
  match s with
  | [] => (-1)%Z
  | x :: r => if N.eqb x c then i else find_from c r (i + 1)%Z
  end.

Definition find (s : str) (c : char) : Z := find_from c s 0%Z.

(** [s.count(sub)]: the occurrences of [sub] in [s] that do not overlap,
    counted from the left ([sub] not empty). *)
Fixpoint count_fuel (fuel : nat) (sub s : str) : nat :=
  match fuel with
  | O => O
  | S fuel' =>
      match s with
      | [] => O
      | _ :: r =>
          if startswith sub s
          then S (count_fuel fuel' sub (skipn (length sub) s))
          else count_fuel fuel' sub r
      end
  end.

Definition count (s sub : str) : nat := count_fuel (length s) sub s.

(** Decimal text of an integer ([str(n)], [f"{n}"]). *)
Definition str_of_Z (z : Z) : str := lit (NilZero.string_of_int (Z.to_int z)).
Definition str_of_nat (n : nat) : str := str_of_Z (Z.of_nat n).

End PyStr.
Import PyStr.

(* ===================================================================== *)
(** * Exceptions and results *)
(* ===================================================================== *)

(** The exceptions the program can meet.  [JSONDecodeError] keeps the
    message, the document and the index, as [json.JSONDecodeError] does;
    [CallError] is whatever the model call raises ([requests] errors, a
    missing key), with its message. *)
Inductive exn :=
| ValueError (msg : str)
| JSONDecodeError (msg : str) (doc : str) (pos : nat)
| TypeError (msg : str)
| AttributeError (msg : str)
| RecursionError
| CallError (msg : str).

Inductive outcome (E A : Type) :=
| Ok (a : A)
| Raise (e : E).
Arguments Ok {E A} a.
Arguments Raise {E A} e.

Definition result := outcome exn.

Definition bind {E A B} (m : outcome E A) (k : A -> outcome E B)
  : outcome E B :=
  match m with
  | Ok a => k a
  | Raise e => Raise e
  end.

Notation "x <- m ;; k" := (bind m (fun x => k))
  (at level 61, m at next level, right associativity).
Notation "' pat <- m ;; k" := (bind m (fun x => match x with pat => k end))
  (at level 61, pat pattern, m at next level, right associativity).

(** [doc.rfind('\n', 0, pos)] *)
Fixpoint rfind_from (c : char) (s : str) (i last : Z) : Z :=
  match s with
  | [] => last
  | x :: r => rfind_from c r (i + 1)%Z (if N.eqb x c then i else last)
  end.

Definition rfind_newline (doc : str) (pos : nat) : Z :=
  rfind_from NEWLINE (firstn pos doc) 0%Z (-1)%Z.

(** [str(e)].  A [JSONDecodeError] prints its message with the line, the
    column and the index of the error. *)
Definition exn_str (e : exn) : str :=
  match e with
  | ValueError m | TypeError m | AttributeError m | CallError m => m
  | RecursionError => lit "maximum recursion depth exceeded"
  | JSONDecodeError m doc pos =>
      let lineno := S (count (firstn pos doc) [NEWLINE]) in
      let colno := (Z.of_nat pos - rfind_newline doc pos)%Z in
      m ++ lit ": line " ++ str_of_nat lineno ++ lit " column "
        ++ str_of_Z colno ++ lit " (char " ++ str_of_nat pos ++ lit ")"
  end.

(* ===================================================================== *)
(** * JSON values *)
(* ===================================================================== *)

(** A Python [float]: an IEEE 754 binary64 value, [(-1)^neg * m * 2^e]
    with [0 <= m < 2^53] and [-1074 <= e <= 971], [m >= 2^52] unless
    [e = -1074]. *)
Inductive pyfloat :=
| Finite (neg : bool) (m e : Z)
| Infinite (neg : bool)
| NotANumber.

(** What [json.loads] returns: [None], [bool], [int], [float], [str],
    [list], [dict]. *)
#[warnings="-register-all"]
Inductive json :=
| JNull
| JBool (b : bool)
| JInt (n : Z)
| JFloat (f : pyfloat)
| JStr (s : str)
| JList (xs : list json)
| JObj (kvs : list (str * json)).

Definition dict := list (str * json).

(** [d.get(k)], as an option. *)
Fixpoint dict_get (d : dict) (k : str) : option json :=
  match d with
  | [] => None
  | (k', v) :: r => if str_eqb k' k then Some v else dict_get r k
  end.

(** [d.get(k, default)] *)
Definition dict_get_default (d : dict) (k : str) (default : json) : json :=
  match dict_get d k with
  | Some v => v
  | None => default
  end.

(** [d[k] = v]: a key that is there keeps its place, a new key goes last. *)
Fixpoint dict_set (d : dict) (k : str) (v : json) : dict :=
  match d with
  | [] => [(k, v)]
  | (k', v') :: r =>
      if str_eqb k' k then (k', v) :: r else (k', v') :: dict_set r k v
  end.

(** [d.setdefault(k, v)] (the dict after the call). *)
Definition dict_setdefault (d : dict) (k : str) (v : json) : dict :=
  match dict_get d k with
  | Some _ => d
  | None => dict_set d k v
  end.

(* ===================================================================== *)
(** * json.loads *)
(* ===================================================================== *)

(** The decoder of CPython's [json] package (the C scanner with its
    default settings: [strict], no hooks).  The interpreter's recursion
    limit and its limit on the digits of an integer are process settings
    and are not modelled. *)
Module Decoder.

(** How a scan fails.  Places are kept as the number of characters that
    were still unread: the index of the error is the document's length
    minus [rem]. *)
Inductive scan_error :=
| StopIteration (rem : nat)
| Errmsg (msg : string) (rem : nat)
| Exhausted.

Definition scan := outcome scan_error.

Definition is_ws (c : char) : bool :=
  ((c =? 32) || (c =? 9) || (c =? 10) || (c =? 13))%N.

Fixpoint skip_ws (s : str) : str :=
  match s with
  | c :: r => if is_ws c then skip_ws r else s
  | [] => []
  end.

Definition is_digit (c : char) : bool := ((48 <=? c) && (c <=? 57))%N.

Definition hex_digit (c : char) : option N :=
  (if (48 <=? c) && (c <=? 57) then Some (c - 48)
   else if (97 <=? c) && (c <=? 102) then Some (c - 87)
   else if (65 <=? c) && (c <=? 70) then Some (c - 55)
   else None)%N.

Definition hex4 (a b c d : char) : option N :=
  match hex_digit a, hex_digit b, hex_digit c, hex_digit d with
  | Some x, Some y, Some z, Some w => Some (((x * 16 + y) * 16 + z) * 16 + w)%N
  | _, _, _, _ => None
  end.

Definition is_high_surrogate (c : N) : bool := ((55296 <=? c) && (c <=? 56319))%N.
Definition is_low_surrogate (c : N) : bool := ((56320 <=? c) && (c <=? 57343))%N.
Definition join_surrogates (hi lo : N) : N :=
  (65536 + (hi - 55296) * 1024 + (lo - 56320))%N.

(** The character an escape letter stands for. *)
Definition unescape (c : char) : option char :=
  (if (c =? 34) || (c =? 92) || (c =? 47) then Some c
   else if c =? 98 then Some 8
   else if c =? 102 then Some 12
   else if c =? 110 then Some 10
   else if c =? 114 then Some 13
   else if c =? 116 then Some 9
   else None)%N.

(** [scanstring]: [s] starts after the opening quote, [begin] is the
    number of unread characters at that quote, [acc] the characters
    decoded so far, last first. *)
Fixpoint scanstring (begin : nat) (s : str) (acc : str) : scan (str * str) :=
  match s with
  | [] => Raise (Errmsg "Unterminated string starting at" begin)
  | c :: r =>
      if N.eqb c QUOTE then Ok (rev acc, r)
      else if N.eqb c BACKSLASH then
        match r with
        | [] => Raise (Errmsg "Unterminated string starting at" begin)
        | e :: r1 =>
            if N.eqb e 117 (* u *) then
              (* four hex digits, and the text goes on after them *)
              match r1 with
              | h1 :: h2 :: h3 :: h4 :: ((_ :: _) as r4) =>
                  match hex4 h1 h2 h3 h4 with
                  | None => Raise (Errmsg "Invalid \uXXXX escape" (length r))
                  | Some c1 =>
                      if is_high_surrogate c1 then
                        (* a low surrogate escape right after it, with
                           text after that too, joins it *)
                        match r4 with
                        | b :: u :: g1 :: g2 :: g3 :: g4 :: ((_ :: _) as r10) =>
                            if N.eqb b BACKSLASH && N.eqb u 117 then
                              match hex4 g1 g2 g3 g4 with
                              | None =>
                                  Raise (Errmsg "Invalid \uXXXX escape"
                                           (5 + length r10))
                              | Some c2 =>
                                  if is_low_surrogate c2
                                  then scanstring begin r10
                                         (join_surrogates c1 c2 :: acc)
                                  else scanstring begin r4 (c1 :: acc)
                              end
                            else scanstring begin r4 (c1 :: acc)
                        | _ => scanstring begin r4 (c1 :: acc)
                        end
                      else scanstring begin r4 (c1 :: acc)
                  end
              | _ => Raise (Errmsg "Invalid \uXXXX escape" (length r))
              end
            else
              match unescape e with
              | Some x => scanstring begin r1 (x :: acc)
              | None => Raise (Errmsg "Invalid \escape" (length s))
              end
        end
      else if (c <=? 31)%N then
        Raise (Errmsg "Invalid control character at" (length s))
      else scanstring begin r (c :: acc)
  end.

(** ** Numbers *)

Fixpoint span_digits (s : str) : str * str :=
  match s with
  | c :: r =>
      if is_digit c then let '(ds, rest) := span_digits r in (c :: ds, rest)
      else ([], s)
  | [] => ([], [])
  end.

(** The value of a run of decimal digits. *)
Definition Z_of_digits (ds : str) : Z :=
  fold_left (fun acc c => (acc * 10 + Z.of_N (c - 48))%Z) ds 0%Z.

(** The binary64 value nearest to [n / d] (ties to even), for [0 <= n]
    and [0 < d]: what C's [strtod] returns for a decimal text. *)
Definition float_of_ratio (neg : bool) (n d : Z) : pyfloat :=
  (if n =? 0 then Finite neg 0 (-1074)
   else
     let l := Z.log2 n - Z.log2 d in
     let above := if 0 <=? l then d * 2 ^ l <=? n else d <=? n * 2 ^ (- l) in
     let e2 := if above then l else l - 1 in
     let e := Z.max (e2 - 52) (-1074) in
     let num := if e <? 0 then n * 2 ^ (- e) else n in
     let den := if e <? 0 then d else d * 2 ^ e in
     let q := num / den in
     let r := num mod den in
     let m := if (den <? 2 * r) || ((den =? 2 * r) && Z.odd q)
              then q + 1 else q in
     let e' := if m =? 2 ^ 53 then e + 1 else e in
     let m' := if m =? 2 ^ 53 then 2 ^ 52 else m in
     if 971 <? e' then Infinite neg else Finite neg m' e')%Z.

(** [float(text)] for the text [-?int(.frac)?(e[+-]?exp)?] the scanner
    matched: the digits [ds] of the integer and fraction parts and the
    power of ten [e10] they are scaled by. *)
Definition float_of_scaled (neg : bool) (c e10 : Z) : pyfloat :=
  (if 0 <=? e10 then float_of_ratio neg (c * 10 ^ e10) 1
   else float_of_ratio neg c (10 ^ (- e10)))%Z.

Definition float_of_decimal (neg : bool) (ds : str) (e10 : Z) : pyfloat :=
  float_of_scaled neg (Z_of_digits ds) e10.

(** The fraction [.digits] at the head of [s], when there is one. *)
Definition match_frac (s : str) : option (str * str) :=
  match s with
  | dot :: d :: r =>
      if N.eqb dot 46 && is_digit d
      then let '(ds, rest) := span_digits r in Some (d :: ds, rest)
      else None
  | _ => None
  end.

(** The exponent [[eE][-+]?digits] at the head of [s], when there is
    one. *)
Definition match_exp (s : str) : option (Z * str) :=
  match s with
  | e :: r =>
      if N.eqb e 101 || N.eqb e 69 then
        let '(neg, r1) :=
          match r with
          | sg :: r' =>
              if N.eqb sg 45 then (true, r')
              else if N.eqb sg 43 then (false, r') else (false, r)
          | [] => (false, r)
          end in
        match span_digits r1 with
        | ([], _) => None
        | (ds, rest) =>
            Some ((if neg then - Z_of_digits ds else Z_of_digits ds)%Z, rest)
        end
      else None
  | [] => None
  end.

(** [_match_number]: [None] is the scanner's [StopIteration]. *)
Definition match_number (s : str) : option (json * str) :=
  let '(neg, s1) :=
    match s with
    | c :: r => if N.eqb c 45 then (true, r) else (false, s)
    | [] => (false, s)
    end in
  match s1 with
  | [] => None
  | c :: r =>
      let int_part :=
        if ((49 <=? c) && (c <=? 57))%N
        then let '(ds, rest) := span_digits r in Some (c :: ds, rest)
        else if N.eqb c 48 then Some ([c], r)
        else None in
      match int_part with
      | None => None
      | Some (ds, rest) =>
          let '(frac, rest1) :=
            match match_frac rest with
            | Some (fs, r1) => (Some fs, r1)
            | None => (None, rest)
            end in
          let '(ex, rest2) :=
            match match_exp rest1 with
            | Some (x, r2) => (Some x, r2)
            | None => (None, rest1)
            end in
          match frac, ex with
          | None, None =>
              Some (JInt (if neg then - Z_of_digits ds else Z_of_digits ds)%Z,
                    rest2)
          | _, _ =>
              let fs := match frac with Some fs => fs | None => [] end in
              let x := match ex with Some x => x | None => 0%Z end in
              Some (JFloat (float_of_decimal neg (ds ++ fs)
                              (x - Z.of_nat (length fs))%Z), rest2)
          end
      end
  end.

(** ** Values *)

(** [scan_once]; [parse_object] and [parse_array] start where the next
    key or item is expected; [fuel] bounds the calls, and
    [S (2 * length s)] is enough for [s]. *)
Fixpoint scan_once (fuel : nat) (s : str) {struct fuel}
  : scan (json * str) :=
  match fuel with
  | O => Raise Exhausted
  | S fuel' =>
      match s with
      | [] => Raise (StopIteration 0)
      | c :: r =>
          if N.eqb c QUOTE then
            '(x, rest) <- scanstring (length s) r [] ;; Ok (JStr x, rest)
          else if N.eqb c LBRACE then
            match skip_ws r with
            | c' :: r' =>
                if N.eqb c' RBRACE then Ok (JObj [], r')
                else parse_object fuel' (skip_ws r) []
            | [] => parse_object fuel' [] []
            end
          else if N.eqb c 91 (* [ *) then
            match skip_ws r with
            | c' :: r' =>
                if N.eqb c' 93 then Ok (JList [], r')
                else parse_array fuel' (skip_ws r) []
            | [] => parse_array fuel' [] []
            end
          else if startswith (lit "null") s then Ok (JNull, skipn 4 s)
          else if startswith (lit "true") s then Ok (JBool true, skipn 4 s)
          else if startswith (lit "false") s then Ok (JBool false, skipn 5 s)
          else if startswith (lit "NaN") s
          then Ok (JFloat NotANumber, skipn 3 s)
          else if startswith (lit "Infinity") s
          then Ok (JFloat (Infinite false), skipn 8 s)
          else if startswith (lit "-Infinity") s
          then Ok (JFloat (Infinite true), skipn 9 s)
          else
            match match_number s with
            | Some vr => Ok vr
            | None => Raise (StopIteration (length s))
            end
      end
  end

with parse_object (fuel : nat) (s : str) (d : dict) {struct fuel}
  : scan (json * str) :=
  match fuel with
  | O => Raise Exhausted
  | S fuel' =>
      match s with
      | c :: r =>
          if N.eqb c QUOTE then
            '(key, s1) <- scanstring (length s) r [] ;;
            match skip_ws s1 with
            | colon :: s2 =>
                if N.eqb colon 58 then
                  '(val, s3) <- scan_once fuel' (skip_ws s2) ;;
                  let d' := dict_set d key val in
                  match skip_ws s3 with
                  | c4 :: s4 =>
                      if N.eqb c4 RBRACE then Ok (JObj d', s4)
                      else if N.eqb c4 44
                      then parse_object fuel' (skip_ws s4) d'
                      else Raise (Errmsg "Expecting ',' delimiter"
                                    (length (skip_ws s3)))
                  | [] => Raise (Errmsg "Expecting ',' delimiter" 0)
                  end
                else Raise (Errmsg "Expecting ':' delimiter"
                              (length (skip_ws s1)))
            | [] => Raise (Errmsg "Expecting ':' delimiter" 0)
            end
          else
            Raise (Errmsg "Expecting property name enclosed in double quotes"
                     (length s))
      | [] =>
          Raise (Errmsg "Expecting property name enclosed in double quotes" 0)
      end
  end

with parse_array (fuel : nat) (s : str) (xs : list json) {struct fuel}
  : scan (json * str) :=
  match fuel with
  | O => Raise Exhausted
  | S fuel' =>
      '(val, s1) <- scan_once fuel' s ;;
      let xs' := xs ++ [val] in
      match skip_ws s1 with
      | c :: s2 =>
          if N.eqb c 93 then Ok (JList xs', s2)
          else if N.eqb c 44 then parse_array fuel' (skip_ws s2) xs'
          else Raise (Errmsg "Expecting ',' delimiter" (length (skip_ws s1)))
      | [] => Raise (Errmsg "Expecting ',' delimiter" 0)
      end
  end.

End Decoder.

(** [json.loads(s)] *)
Definition json_loads (s : str) : result json :=
  if startswith [65279%N] s then
    Raise (JSONDecodeError
             (lit "Unexpected UTF-8 BOM (decode using utf-8-sig)") s 0)
  else
    let s0 := Decoder.skip_ws s in
    match Decoder.scan_once (S (2 * length s0)) s0 with
    | Ok (v, rest) =>
        match Decoder.skip_ws rest with
        | [] => Ok v
        | extra =>
            Raise (JSONDecodeError (lit "Extra data") s
                     (length s - length extra))
        end
    | Raise (Decoder.StopIteration rem) =>
        Raise (JSONDecodeError (lit "Expecting value") s (length s - rem))
    | Raise (Decoder.Errmsg msg rem) =>
        Raise (JSONDecodeError (lit msg) s (length s - rem))
    | Raise Decoder.Exhausted => Raise RecursionError
    end.

(* ===================================================================== *)
(** * extract_json *)
(* ===================================================================== *)

(** A character that [c] of the pattern matches under [re.IGNORECASE]:
    the two cases of the letter, and for [s] also the long s (U+017F),
    which lower-cases to it. *)
Definition matches_ci (lower : char) (x : char) : bool :=
  (N.eqb x lower || N.eqb x (lower - 32)
   || (N.eqb lower 115 && N.eqb x 383))%N.

(** [re.sub(r"^```(?:json)?", "", text, flags=re.IGNORECASE)] *)
Definition sub_open_fence (text : str) : str :=
  if startswith (lit "```") text then
    match skipn 3 text with
    | j :: s :: o :: n :: rest =>
        if matches_ci 106%N j && matches_ci 115%N s
           && matches_ci 111%N o && matches_ci 110%N n
        then rest
        else skipn 3 text
    | rest => rest
    end
  else text.

(** [re.sub(r"```$", "", text)]: [$] matches at the end of the text and
    before a newline that ends it. *)
Definition sub_close_fence (text : str) : str :=
  if endswith (lit "```") text then firstn (length text - 3) text
  else if endswith (lit "```" ++ [NEWLINE]) text
  then firstn (length text - 4) text ++ [NEWLINE]
  else text.

(** The loop [for i in range(start, len(text))]: [rest] is [text[i:]] and
    [depth] the counter. *)
Fixpoint extract_json_loop (text : str) (start : nat)
    (rest : str) (i : nat) (depth : Z) : result json :=
  match rest with
  | [] => Raise (ValueError (lit "Could not match complete JSON"))
  | c :: rest' =>
      if N.eqb c LBRACE then
        extract_json_loop text start rest' (S i) (depth + 1)%Z
      else if N.eqb c RBRACE then
        let depth := (depth - 1)%Z in
        if (depth =? 0)%Z then
          let json_str := slice text start (i + 1) in
          json_loads json_str
        else extract_json_loop text start rest' (S i) depth
      else extract_json_loop text start rest' (S i) depth
  end.

(** The text the search runs on: lines 77 to 79. *)
Definition strip_fences (text : str) : str :=
  let text := strip text in
  let text := strip (sub_open_fence text) in
  let text := strip (sub_close_fence text) in
  text.

Definition extract_json (text : str) : result json :=
  let text := strip_fences text in
  let start := find text LBRACE in
  if (start =? -1)%Z then
    Raise (ValueError (lit "No JSON detected in LLM response"))
  else
    let start := Z.to_nat start in
    extract_json_loop text start (skipn start text) start 0%Z.

(* ===================================================================== *)
(** * float.__repr__ *)
(* ===================================================================== *)

(** The shortest decimal text that reads back as the same binary64 value
    (the nearest to it when there are two), laid out as CPython does: an
    exponent when the decimal point would stand more than 16 digits to the
    right of the first digit or 4 or more to its left. *)
Module FloatRepr.

(** [10^x <= n / d] *)
Definition le_pow10 (x n d : Z) : bool :=
  (if 0 <=? x then 10 ^ x * d <=? n else d <=? n * 10 ^ (- x))%Z.

Fixpoint adjust_down (fuel : nat) (x n d : Z) : Z :=
  match fuel with
  | O => x
  | S f => if le_pow10 x n d then x else adjust_down f (x - 1)%Z n d
  end.

Fixpoint adjust_up (fuel : nat) (x n d : Z) : Z :=
  match fuel with
  | O => x
  | S f => if le_pow10 (x + 1) n d then adjust_up f (x + 1)%Z n d else x
  end.

(** The [x] with [10^x <= n / d < 10^(x+1)]. *)
Definition floor_log10 (n d : Z) : Z :=
  let g := ((Z.log2 n - Z.log2 d) * 1233 / 4096)%Z in
  adjust_up 4 (adjust_down 4 g n d) n d.

Definition pyfloat_eqb (a b : pyfloat) : bool :=
  match a, b with
  | Finite s m e, Finite s' m' e' =>
      Bool.eqb s s' && (m =? m')%Z && (e =? e')%Z
  | Infinite s, Infinite s' => Bool.eqb s s'
  | NotANumber, NotANumber => true
  | _, _ => false
  end.

(** The decimals with [k] digits next to [n / d], nearest first, as
    [c * 10^p]. *)
Definition neighbours (n d x k : Z) : (Z * Z) * (Z * Z) :=
  (let p := x - k + 1 in
   let num := if 0 <=? p then n else n * 10 ^ (- p) in
   let den := if 0 <=? p then d * 10 ^ p else d in
   let lo := num / den in
   let r := num mod den in
   let lo_first := (2 * r <? den) || ((2 * r =? den) && Z.even lo) in
   if lo_first then ((lo, p), (lo + 1, p)) else ((lo + 1, p), (lo, p)))%Z.

Fixpoint search (fuel : nat) (m e n d x k : Z) : Z * Z :=
  let '(c1, c2) := neighbours n d x k in
  let back c := pyfloat_eqb (Decoder.float_of_scaled false (fst c) (snd c))
                  (Finite false m e) in
  match fuel with
  | O => c1
  | S f =>
      if back c1 then c1
      else if back c2 then c2
      else search f m e n d x (k + 1)%Z
  end.

(** The digits and the exponent of the shortest decimal for [m * 2^e],
    [0 < m]. *)
Definition shortest (m e : Z) : Z * Z :=
  (let n := if 0 <=? e then m * 2 ^ e else m in
   let d := if 0 <=? e then 1 else 2 ^ (- e) in
   search 16 m e n d (floor_log10 n d) 1)%Z.

Fixpoint strip_zeros_rev (r : str) : str :=
  match r with
  | c :: r' => if N.eqb c 48 then strip_zeros_rev r' else r
  | [] => []
  end.

Definition zeros (n : Z) : str := repeat 48%N (Z.to_nat n).

(** The exponent with its sign and at least two digits. *)
Definition exp_text (x : Z) : str :=
  (let a := str_of_Z (Z.abs x) in
   (if x <? 0 then lit "-" else lit "+")
     ++ (if Z.abs x <? 10 then 48%N :: a else a))%Z.

Definition repr_finite (neg : bool) (m e : Z) : str :=
  (if neg then lit "-" else []) ++
  (if (m =? 0)%Z then lit "0.0"
   else
     let '(c, p) := shortest m e in
     let all := str_of_Z c in
     let ds := rev (strip_zeros_rev (rev all)) in
     let decpt := (Z.of_nat (length all) + p)%Z in
     if ((decpt <=? -4) || (16 <? decpt))%Z then
       firstn 1 ds
         ++ (match skipn 1 ds with [] => [] | fr => lit "." ++ fr end)
         ++ lit "e" ++ exp_text (decpt - 1)
     else if (decpt <=? 0)%Z then lit "0." ++ zeros (- decpt) ++ ds
     else if (Z.of_nat (length ds) <=? decpt)%Z
     then ds ++ zeros (decpt - Z.of_nat (length ds)) ++ lit ".0"
     else firstn (Z.to_nat decpt) ds ++ lit "." ++ skipn (Z.to_nat decpt) ds).

End FloatRepr.

(** [repr(f)] and [str(f)] of a float. *)
Definition float_repr (f : pyfloat) : str :=
  match f with
  | Finite neg m e => FloatRepr.repr_finite neg m e
  | Infinite neg => if neg then lit "-inf" else lit "inf"
  | NotANumber => lit "nan"
  end.

(* ===================================================================== *)
(** * str, repr and json.dumps *)
(* ===================================================================== *)

Definition hex_char (d : N) : char := (if d <? 10 then 48 + d else 87 + d)%N.

(** [n] in lower-case hexadecimal, [width] digits. *)
Fixpoint hex (width : nat) (n : N) : str :=
  match width with
  | O => []
  | S w => hex w (n / 16)%N ++ [hex_char (n mod 16)%N]
  end.

(** [sep.join(parts)] *)
Fixpoint join (sep : str) (parts : list str) : str :=
  match parts with
  | [] => []
  | [p] => p
  | p :: rest => p ++ sep ++ join sep rest
  end.

Definition type_name (v : json) : string :=
  match v with
  | JNull => "NoneType"
  | JBool _ => "bool"
  | JInt _ => "int"
  | JFloat _ => "float"
  | JStr _ => "str"
  | JList _ => "list"
  | JObj _ => "dict"
  end.

(** [json.dumps(v)] with its defaults ([ensure_ascii], the separators
    [", "] and [": "]). *)
Module Encoder.

Definition escape (c : char) : str :=
  (if c =? 34 then lit "\" ++ [QUOTE]
   else if c =? 92 then lit "\\"
   else if c =? 10 then lit "\n"
   else if c =? 13 then lit "\r"
   else if c =? 9 then lit "\t"
   else if c =? 12 then lit "\f"
   else if c =? 8 then lit "\b"
   else if (32 <=? c) && (c <=? 126) then [c]
   else if c <? 65536 then lit "\u" ++ hex 4 c
   else
     let v := c - 65536 in
     lit "\u" ++ hex 4 (55296 + v / 1024)
       ++ lit "\u" ++ hex 4 (56320 + v mod 1024))%N.

Definition encode_str (s : str) : str :=
  [QUOTE] ++ concat (map escape s) ++ [QUOTE].

Definition encode_float (f : pyfloat) : str :=
  match f with
  | Finite _ _ _ => float_repr f
  | Infinite neg => if neg then lit "-Infinity" else lit "Infinity"
  | NotANumber => lit "NaN"
  end.

Fixpoint encode (v : json) : str :=
  match v with
  | JNull => lit "null"
  | JBool b => if b then lit "true" else lit "false"
  | JInt n => str_of_Z n
  | JFloat f => encode_float f
  | JStr s => encode_str s
  | JList xs => lit "[" ++ join (lit ", ") (map encode xs) ++ lit "]"
  | JObj kvs =>
      lit "{"
        ++ join (lit ", ")
             (map (fun kv => encode_str (fst kv) ++ lit ": " ++ encode (snd kv))
                kvs)
        ++ lit "}"
  end.

End Encoder.

Definition json_dumps (v : json) : str := Encoder.encode v.

(** The handler's collaborator and the Unicode table.  [isprintable c] is
    [str.isprintable] on the code point [c]; it is a table of the Unicode
    database of the interpreter, and [repr] asks it only about code points
    above ASCII. *)
Section Program.

Variable isprintable : char -> bool.

(** [repr(s)] of a string. *)
Definition repr_char (q : char) (c : char) : str :=
  (if (c =? q) || (c =? 92) then [BACKSLASH; c]
   else if c =? 9 then lit "\t"
   else if c =? 10 then lit "\n"
   else if c =? 13 then lit "\r"
   else if (c <? 32) || (c =? 127) then lit "\x" ++ hex 2 c
   else if c <? 127 then [c]
   else if isprintable c then [c]
   else if c <=? 255 then lit "\x" ++ hex 2 c
   else if c <=? 65535 then lit "\u" ++ hex 4 c
   else lit "\U" ++ hex 8 c)%N.

Definition repr_str (s : str) : str :=
  let q := if existsb (N.eqb 39) s && negb (existsb (N.eqb 34) s)
           then QUOTE else 39%N in
  [q] ++ concat (map (repr_char q) s) ++ [q].

(** [repr(v)] *)
Fixpoint py_repr (v : json) : str :=
  match v with
  | JNull => lit "None"
  | JBool b => if b then lit "True" else lit "False"
  | JInt n => str_of_Z n
  | JFloat f => float_repr f
  | JStr s => repr_str s
  | JList xs => lit "[" ++ join (lit ", ") (map py_repr xs) ++ lit "]"
  | JObj kvs =>
      lit "{"
        ++ join (lit ", ")
             (map (fun kv => repr_str (fst kv) ++ lit ": " ++ py_repr (snd kv))
                kvs)
        ++ lit "}"
  end.

(** [str(v)] *)
Definition py_str (v : json) : str :=
  match v with
  | JStr s => s
  | _ => py_repr v
  end.

(* ===================================================================== *)
(** * normalize_suggestions *)
(* ===================================================================== *)

(** What iterating over [v] yields ([enumerate(v)] without the indices):
    the items of a list, the characters of a string, the keys of a dict;
    the other values are not iterable. *)
Definition py_iter (v : json) : result (list json) :=
  match v with
  | JList xs => Ok xs
  | JStr s => Ok (map (fun c => JStr [c]) s)
  | JObj d => Ok (map (fun kv => JStr (fst kv)) d)
  | _ =>
      Raise (TypeError
               (lit "'" ++ lit (type_name v) ++ lit "' object is not iterable"))
  end.

(** The body of the loop: the new value of [normalized] for the item [s]
    at index [i]. *)
Definition normalize_suggestions_step (normalized : list json)
    (i : nat) (s : json) : list json :=
  match s with
  | JStr s =>
      normalized ++
        [JObj [(lit "id", JStr (lit "S" ++ str_of_nat (i + 1)));
               (lit "title", JStr (firstn 40 s));
               (lit "detail", JStr s)]]
  | JObj s =>
      normalized ++
        [JObj [(lit "id",
                 dict_get_default s (lit "id")
                   (JStr (lit "S" ++ str_of_nat (i + 1))));
               (lit "title",
                 dict_get_default s (lit "title")
                   (dict_get_default s (lit "description")
                      (JStr (lit "Suggestion"))));
               (lit "detail",
                 dict_get_default s (lit "detail")
                   (dict_get_default s (lit "description") (JStr (lit ""))))]]
  | _ =>
      normalized ++
        [JObj [(lit "id", JStr (lit "S" ++ str_of_nat (i + 1)));
               (lit "title", JStr (lit "Suggestion"));
               (lit "detail", JStr (py_str s))]]
  end.

Fixpoint normalize_suggestions_loop (items : list json) (i : nat)
    (normalized : list json) : list json :=
  match items with
  | [] => normalized
  | s :: rest =>
      normalize_suggestions_loop rest (S i)
        (normalize_suggestions_step normalized i s)
  end.

Definition normalize_suggestions (suggestions : json) : result (list json) :=
  items <- py_iter suggestions ;;
  Ok (normalize_suggestions_loop items 0 []).

(* ===================================================================== *)
(** * normalize_metrics *)
(* ===================================================================== *)

(** [metrics.get(k, default)]: a method of dicts only. *)
Definition py_get (v : json) (k : str) (default : json) : result json :=
  match v with
  | JObj d => Ok (dict_get_default d k default)
  | _ =>
      Raise (AttributeError
               (lit "'" ++ lit (type_name v)
                  ++ lit "' object has no attribute 'get'"))
  end.

Definition normalize_metrics (metrics language : json) (code : str)
  : result json :=
  let loc := JInt (Z.of_nat (count code [NEWLINE] + 1)) in
  loc_before <- py_get metrics (lit "Lines of Code Before") loc ;;
  loc_after <- py_get metrics (lit "Lines of Code After") loc ;;
  reduction <- py_get metrics (lit "Lines of Code Reduced") (JInt 0) ;;
  redundant_removed <-
    py_get metrics (lit "Redundant Variables Removed") JNull ;;
  security_improved <-
    py_get metrics (lit "String Input Security Improved") (JBool false) ;;
  Ok (JObj [(lit "language", language);
            (lit "loc_before", loc_before);
            (lit "loc_after", loc_after);
            (lit "reduction", reduction);
            (lit "redundant_removed", redundant_removed);
            (lit "security_improved", security_improved)]).

(* ===================================================================== *)
(** * POST /optimize *)
(* ===================================================================== *)

(** [call_ollama(language, code)]: the call to the model server.  It
    returns the model's text or raises. *)
Variable call_ollama : json -> str -> result str.

(** [parsed.setdefault(k, v)]: a method of dicts only. *)
Definition py_setdefault (v : json) (k : str) (default : json)
  : result dict :=
  match v with
  | JObj d => Ok (dict_setdefault d k default)
  | _ =>
      Raise (AttributeError
               (lit "'" ++ lit (type_name v)
                  ++ lit "' object has no attribute 'setdefault'"))
  end.

(** A response: the body handed to [jsonify] and the status. *)
Definition response := (json * Z)%type.

(** The lines after the [try] block: defaults and normalisation. *)
Definition finish (parsed language : json) (code : str) : result response :=
  parsed <- py_setdefault parsed (lit "optimized_code") (JStr code) ;;
  let parsed := dict_setdefault parsed (lit "suggestions") (JList []) in
  let parsed := dict_setdefault parsed (lit "metrics") (JObj []) in
  suggestions <-
    normalize_suggestions
      (dict_get_default parsed (lit "suggestions") (JList [])) ;;
  let parsed := dict_set parsed (lit "suggestions") (JList suggestions) in
  metrics <-
    normalize_metrics (dict_get_default parsed (lit "metrics") (JObj []))
      language code ;;
  let parsed := dict_set parsed (lit "metrics") metrics in
  Ok (JObj parsed, 200%Z).

(** The handler, from the decoded body [data] of the request.  A raised
    exception is one the handler does not catch. *)
Definition optimize (data : json) : result response :=
  language <- py_get data (lit "language") JNull ;;
  code <- py_get data (lit "code") JNull ;;
  match code with
  | JStr code =>
      match (raw <- call_ollama language code ;; extract_json raw) with
      | Raise e =>
          Ok (JObj [(lit "error", JStr (lit "LLM error: " ++ exn_str e))],
              500%Z)
      | Ok parsed => finish parsed language code
      end
  | _ => Ok (JObj [(lit "error", JStr (lit "`code` must be a string"))], 400%Z)
  end.

End Program.

(* ===================================================================== *)
(** * call_ollama and GET / *)
(* ===================================================================== *)

Module Ollama.

Definition MODEL_NAME : str := lit "qwen2.5-coder:7b".

(** The constant of lines 13 to 35; an apostrophe stands for a double
    quote. *)
Definition SYSTEM_INSTRUCTION : str := jlit "
You MUST reply with ONLY valid JSON.
NO explanations. NO markdown. NO backticks.

Response shape:
{
  'optimized_code': 'string',
  'suggestions': [
    {
      'id': 'S1',
      'title': 'short title',
      'detail': 'full explanation'
    }
  ],
  'metrics': {
    'language': 'c',
    'loc_before': 0,
    'loc_after': 0,
    'reduction': 0
  }
}
You MUST follow this structure.
".

(** [USER_TEMPLATE], lines 37 to 53, up to its field [{language}]. *)
Definition USER_TEMPLATE_head : str := lit "
Optimize this code.

Improve:
- dead code removal
- better naming
- safer input
- modularity
- readability
- remove unused variables
- remove duplicate logic

Language: ".

(** [USER_TEMPLATE.format(language=language, code=code)], from
    [str(language)] and [code].  The template holds the two fields and no
    other brace, so formatting writes the two texts in their places; what
    it writes is not read for fields again. *)
Definition USER_TEMPLATE_format (language code : str) : str :=
  USER_TEMPLATE_head ++ language ++ [NEWLINE; NEWLINE] ++ lit "Code:"
    ++ [NEWLINE] ++ code ++ [NEWLINE].

Section Call.

Variable isprintable : char -> bool.

(** The exchange with the model server, from the payload to the decoded
    reply: [requests.post(OLLAMA_URL, json=payload, timeout=120)],
    [resp.raise_for_status()] and [resp.json()].  It raises when the server
    is not reached in time, when it answers with an error status and when
    its body is not JSON. *)
Variable post : json -> result json.

(** [data[k]] for a string [k].  A missing key is a [KeyError], whose text
    is [repr(k)]. *)
Definition py_getitem (data : json) (k : str) : result json :=
  match data with
  | JObj d =>
      match dict_get d k with
      | Some v => Ok v
      | None => Raise (CallError (repr_str isprintable k))
      end
  | JList _ =>
      Raise (TypeError (lit "list indices must be integers or slices, not str"))
  | JStr _ =>
      Raise (TypeError (lit "string indices must be integers, not 'str'"))
  | _ =>
      Raise (TypeError
               (lit "'" ++ lit (type_name data)
                  ++ lit "' object is not subscriptable"))
  end.

(** The payload of the request. *)
Definition payload (language : json) (code : str) : json :=
  let user_prompt :=
    USER_TEMPLATE_format (py_str isprintable language) code in
  let full_prompt := SYSTEM_INSTRUCTION ++ [NEWLINE] ++ user_prompt in
  JObj [(lit "model", JStr MODEL_NAME);
        (lit "prompt", JStr full_prompt);
        (lit "stream", JBool false)].

Definition call_ollama (language : json) (code : str) : result json :=
  data <- post (payload language code) ;;
  py_getitem data (lit "response").

(** The receiver of [text.strip()], the first step of [extract_json]: a
    value that is not a string has no [strip]. *)
Definition text_of (raw : json) : result str :=
  match raw with
  | JStr s => Ok s
  | _ =>
      Raise (AttributeError
               (lit "'" ++ lit (type_name raw)
                  ++ lit "' object has no attribute 'strip'"))
  end.

(** The call as the handler's [try] block meets it: the value
    [call_ollama] returns, read as the text [extract_json] works on. *)
Definition ask (language : json) (code : str) : result str :=
  raw <- call_ollama language code ;;
  text_of raw.

End Call.

End Ollama.

(** [GET /] *)
Definition ping : response := (JObj [(lit "ok", JBool true)], 200%Z).

(* ===================================================================== *)
(** * The vocabulary of the specification *)
(* ===================================================================== *)

(** [x or d] of the specification's field lists: the field when the key is
    there, the fallback [d] when it is not. *)
Definition or_else (field : option json) (d : json) : json :=
  match field with
  | Some v => v
  | None => d
  end.

(** A canonical suggestion [{ id, title, detail }]. *)
Definition suggestion (id title detail : json) : json :=
  JObj [(lit "id", id); (lit "title", title); (lit "detail", detail)].

(** The fallback id [S<i+1>] of the item at index [i]. *)
Definition fallback_id (i : nat) : json :=
  JStr (lit "S" ++ str_of_nat (S i)).

(** The suggestion the specification's three cases give for the item [x]
    at index [i]. *)
Definition suggestion_spec (isprintable : char -> bool) (i : nat) (x : json)
  : json :=
  match x with
  | JStr s => suggestion (fallback_id i) (JStr (firstn 40 s)) (JStr s)
  | JObj o =>
      suggestion
        (or_else (dict_get o (lit "id")) (fallback_id i))
        (or_else (dict_get o (lit "title"))
           (or_else (dict_get o (lit "description")) (JStr (lit "Suggestion"))))
        (or_else (dict_get o (lit "detail"))
           (or_else (dict_get o (lit "description")) (JStr (lit ""))))
  | other =>
      suggestion (fallback_id i) (JStr (lit "Suggestion"))
        (JStr (py_str isprintable other))
  end.

(** The number of newline characters of a text. *)
Definition newlines (code : str) : nat := count_occ N.eq_dec code NEWLINE.

(** The nesting depth the braces of a text add up to: [+1] for an opening
    brace, [-1] for a closing one. *)
Definition brace_step (c : char) : Z :=
  if N.eqb c LBRACE then 1%Z else if N.eqb c RBRACE then (-1)%Z else 0%Z.

Fixpoint brace_depth (s : str) : Z :=
  match s with
  | [] => 0%Z
  | c :: r => (brace_step c + brace_depth r)%Z
  end.

(** A block that opens with a brace and whose depth is back at zero at its
    last character and nowhere before. *)
Definition balanced_block (c : str) : Prop :=
  (exists r, c = LBRACE :: r)
  /\ brace_depth c = 0%Z
  /\ forall n, 0 < n < length c -> brace_depth (firstn n c) <> 0%Z.

(** [c] is the candidate of the text [t]: [t] is [c] with text before it
    that holds no opening brace, and any text after it. *)
Definition candidate (t c : str) : Prop :=
  exists before after,
    t = before ++ c ++ after /\ ~ In LBRACE before /\ balanced_block c.

(** The depth never comes back to zero from the first opening brace of [t]
    on. *)
Definition never_closed (t : str) : Prop :=
  exists before rest,
    t = before ++ LBRACE :: rest /\ ~ In LBRACE before
    /\ forall n, 0 < n <= length (LBRACE :: rest) ->
         brace_depth (firstn n (LBRACE :: rest)) <> 0%Z.

(** Braces that are properly nested: no prefix closes more than it opens,
    and the whole closes all it opens. *)
Definition properly_nested (s : str) : Prop :=
  brace_depth s = 0%Z /\ forall n, (0 <= brace_depth (firstn n s))%Z.

(** Every string of a value, keys and string values alike. *)
Fixpoint all_strings (v : json) : list str :=
  match v with
  | JStr s => [s]
  | JList xs => flat_map all_strings xs
  | JObj kvs => flat_map (fun kv => fst kv :: all_strings (snd kv)) kvs
  | _ => []
  end.

(** The keys of a dict, in order. *)
Definition keys (d : dict) : list str := map fst d.

(** What can be iterated over, and what has a [get]. *)
Definition iterable (v : json) : Prop :=
  match v with
  | JList _ | JStr _ | JObj _ => True
  | _ => False
  end.

Definition is_object (v : json) : Prop :=
  match v with
  | JObj _ => True
  | _ => False
  end.

(** ** Auxiliary notions of the proofs *)

(** The entries for [items], the first of them at index [i]. *)
Fixpoint entries_from (isprintable : char -> bool) (i : nat)
    (items : list json) : list json :=
  match items with
  | [] => []
  | s :: rest =>
      suggestion_spec isprintable i s :: entries_from isprintable (S i) rest
  end.

(** The six keys of the canonical metrics. *)
Definition metrics_keys : list str :=
  [lit "language"; lit "loc_before"; lit "loc_after"; lit "reduction";
   lit "redundant_removed"; lit "security_improved"].

(** A value of the canonical shape [{ id, title, detail }]. *)
Definition is_suggestion (e : json) : Prop :=
  exists id title detail, e = suggestion id title detail.

(** No prefix of [s] brings the depth, started at [k], below zero. *)
Definition nonneg_from (k : Z) (s : str) : Prop :=
  forall n, (0 <= k + brace_depth (firstn n s))%Z.

(** The same as a test. *)
Fixpoint nested_from (k : Z) (s : str) : bool :=
  (0 <=? k)%Z &&
  match s with
  | [] => true
  | c :: r => nested_from (k + brace_step c) r
  end.

(** A text with no brace in it. *)
Definition plain (s : str) : Prop := Forall (fun c => brace_step c = 0%Z) s.

(** Induction over a value and the values inside it. *)
Fixpoint json_nested_ind (P : json -> Prop)
    (Hnull : P JNull) (Hbool : forall b, P (JBool b))
    (Hint : forall n, P (JInt n)) (Hfloat : forall f, P (JFloat f))
    (Hstr : forall s, P (JStr s))
    (Hlist : forall xs, Forall P xs -> P (JList xs))
    (Hobj : forall kvs, Forall (fun kv => P (snd kv)) kvs -> P (JObj kvs))
    (v : json) {struct v} : P v :=
  let rec := json_nested_ind P Hnull Hbool Hint Hfloat Hstr Hlist Hobj in
  match v with
  | JNull => Hnull
  | JBool b => Hbool b
  | JInt n => Hint n
  | JFloat f => Hfloat f
  | JStr s => Hstr s
  | JList xs =>
      Hlist xs
        ((fix items (l : list json) : Forall P l :=
            match l with
            | [] => Forall_nil P
            | x :: r => Forall_cons x (rec x) (items r)
            end) xs)
  | JObj kvs =>
      Hobj kvs
        ((fix members (l : list (str * json))
            : Forall (fun kv => P (snd kv)) l :=
            match l with
            | [] => Forall_nil _
            | kv :: r => Forall_cons kv (rec (snd kv)) (members r)
            end) kvs)
  end.

(** A scan that went fine: it did not run out of fuel, and if it returned
    it read at least one character of the [n] it was given. *)
Definition scan_fine {A : Type} (n : nat) (o : Decoder.scan (A * str))
  : Prop :=
  match o with
  | Ok (_, rest) => length rest < n
  | Raise e => e <> Decoder.Exhausted
  end.

(** ** Requests and model answers of the examples *)

(** The model's answer in the examples below: it leaves [optimized_code]
    out. *)
Definition answer_without_code (language : json) (code : str) : result str :=
  Ok (jlit "Here you go: {'suggestions': ['use void'], 'metrics': {}}").

Definition request_c : dict :=
  [(lit "language", JStr (lit "c")); (lit "code", JStr (lit "int main(){}"))].

(** The model's answer of the specification's end-to-end scenario. *)
Definition answer_fenced (language : json) (code : str) : result str :=
  Ok (lit "```json" ++ [NEWLINE]
        ++ jlit "{'optimized_code':'int main(void){}','suggestions':['use void'],'metrics':{'Lines of Code Reduced':0}}"
        ++ [NEWLINE] ++ lit "```").

(** A model answer whose [suggestions] is null, and one whose [metrics] is
    a list. *)
Definition null_suggestions : str :=
  jlit "{'optimized_code': 'x', 'suggestions': null, 'metrics': {}}".

Definition list_metrics : str :=
  jlit "{'optimized_code': 'x', 'suggestions': [], 'metrics': []}".

(** An object with nested braces in a key and in a string value. *)
Definition nested_example : dict :=
  [(lit "a{}", JObj [(lit "b", JStr (lit "{x}{{y}}"))]);
   (lit "c",
     JList [JInt 1; JStr (lit "y");
            JFloat (Finite false 6755399441055744 (-52)) (* 1.5 *)])].

(** ** Notions of the further properties *)

(** [t] is [s] without a part at its start and a part at its end, neither
    of which holds a brace. *)
Definition trimmed (s t : str) : Prop :=
  exists pre post, s = pre ++ t ++ post /\ plain pre /\ plain post.

(** The field [k] of a value: what an object holds under [k]. *)
Definition field (k : str) (v : json) : option json :=
  match v with
  | JObj d => dict_get d k
  | _ => None
  end.

(** The five keys [normalize_metrics] reads. *)
Definition raw_metrics_keys : list str :=
  [lit "Lines of Code Before"; lit "Lines of Code After";
   lit "Lines of Code Reduced"; lit "Redundant Variables Removed";
   lit "String Input Security Improved"].

(** The metrics made of the defaults alone, for a code of [loc] lines. *)
Definition default_metrics (language : json) (loc : nat) : json :=
  JObj [(lit "language", language);
        (lit "loc_before", JInt (Z.of_nat loc));
        (lit "loc_after", JInt (Z.of_nat loc));
        (lit "reduction", JInt 0);
        (lit "redundant_removed", JNull);
        (lit "security_improved", JBool false)].

(** The keys of the [metrics] of the response shape the prompt asks for
    (lines 27 to 32). *)
Definition prompt_metrics_keys : list str :=
  [lit "language"; lit "loc_before"; lit "loc_after"; lit "reduction"].

(** Metrics of that shape. *)
Definition prompt_shaped_metrics : dict :=
  [(lit "language", JStr (lit "c")); (lit "loc_before", JInt 10);
   (lit "loc_after", JInt 7); (lit "reduction", JInt 3)].

(** A server that answers every request with the same decoded reply. *)
Definition server (reply : json) (payload : json) : result json := Ok reply.

(* ===================================================================== *)
(** * Strings and dicts: basic facts *)
(* ===================================================================== *)

Lemma str_eqb_spec (a b : str) : reflect (a = b) (str_eqb a b).
Proof.
  revert b; induction a as [|x a IH]; intros [|y b]; simpl;
    try (constructor; congruence).
  destruct (N.eqb_spec x y) as [->|Hxy]; simpl.
  - destruct (IH b) as [->|Hab]; constructor; congruence.
  - constructor; congruence.
Qed.

Lemma str_eqb_refl (a : str) : str_eqb a a = true.
Proof. destruct (str_eqb_spec a a); congruence. Qed.

Lemma str_eqb_neq (a b : str) : a <> b -> str_eqb a b = false.
Proof. destruct (str_eqb_spec a b); congruence. Qed.

Lemma dict_get_set_same (d : dict) (k : str) (v : json) :
  dict_get (dict_set d k v) k = Some v.
Proof.
  induction d as [|[k' v'] d IH]; simpl.
  - now rewrite str_eqb_refl.
  - destruct (str_eqb k' k) eqn:E; simpl; rewrite E; auto.
Qed.

Lemma dict_get_set_other (d : dict) (k k' : str) (v : json) :
  k <> k' -> dict_get (dict_set d k v) k' = dict_get d k'.
Proof.
  intros Hk; induction d as [|[k0 v0] d IH]; simpl.
  - now rewrite str_eqb_neq.
  - destruct (str_eqb_spec k0 k) as [->|Hk0]; simpl.
    + now rewrite (str_eqb_neq _ _ Hk).
    + destruct (str_eqb k0 k'); auto.
Qed.

Lemma dict_get_setdefault_same (d : dict) (k : str) (v : json) :
  dict_get (dict_setdefault d k v) k = Some (or_else (dict_get d k) v).
Proof.
  unfold dict_setdefault; destruct (dict_get d k) eqn:E; simpl; auto.
  apply dict_get_set_same.
Qed.

Lemma dict_get_setdefault_other (d : dict) (k k' : str) (v : json) :
  k <> k' -> dict_get (dict_setdefault d k v) k' = dict_get d k'.
Proof.
  intros Hk; unfold dict_setdefault; destruct (dict_get d k); auto.
  now apply dict_get_set_other.
Qed.

Lemma dict_get_default_or_else (d : dict) (k : str) (v : json) :
  dict_get_default d k v = or_else (dict_get d k) v.
Proof. reflexivity. Qed.

(* ===================================================================== *)
(** * normalize_suggestions *)
(* ===================================================================== *)

Section Suggestions.

Variable isprintable : char -> bool.

(** Each pass of the loop appends one entry, the one of the specification. *)
Lemma normalize_suggestions_step_spec (normalized : list json) i s :
  normalize_suggestions_step isprintable normalized i s
  = normalized ++ [suggestion_spec isprintable i s].
Proof.
  destruct s; unfold normalize_suggestions_step, suggestion_spec, suggestion,
    fallback_id; rewrite ?Nat.add_1_r; reflexivity.
Qed.

Lemma normalize_suggestions_loop_spec items : forall i normalized,
  normalize_suggestions_loop isprintable items i normalized
  = normalized ++ entries_from isprintable i items.
Proof.
  induction items as [|s rest IH]; intros i normalized; simpl.
  - now rewrite app_nil_r.
  - rewrite IH, normalize_suggestions_step_spec, <- app_assoc. reflexivity.
Qed.

Lemma entries_from_length items : forall i,
  length (entries_from isprintable i items) = length items.
Proof. induction items; intros i; simpl; auto. Qed.

Lemma entries_are_suggestions items : forall i,
  Forall is_suggestion (entries_from isprintable i items).
Proof.
  induction items as [|s rest IH]; intros i; simpl; constructor; auto.
  unfold is_suggestion, suggestion_spec. destruct s; eauto.
Qed.

Lemma entries_from_nth items : forall i k,
  nth_error (entries_from isprintable i items) k
  = option_map (suggestion_spec isprintable (i + k)) (nth_error items k).
Proof.
  induction items as [|s rest IH]; intros i [|k]; simpl; auto.
  - now rewrite Nat.add_0_r.
  - rewrite IH. now rewrite Nat.add_succ_r.
Qed.

(** C5.  For every list [xs], [normalize_suggestions] returns a list whose
    entry at index [i] is the one the specification gives for [xs[i]]: for
    a string [s], id [S<i+1>], title the first 40 characters of [s], detail
    [s]; for an object, its id or [S<i+1>], its title or its description or
    ["Suggestion"], its detail or its description or the empty string; for
    any other value, id [S<i+1>], title ["Suggestion"], detail [str] of the
    value.  ("or": the field when its key is in the object.) *)
Theorem normalize_suggestions_entries (xs : list json) :
  exists out,
    normalize_suggestions isprintable (JList xs) = Ok out
    /\ forall i x, nth_error xs i = Some x ->
         nth_error out i = Some
           match x with
           | JStr s =>
               suggestion (fallback_id i) (JStr (firstn 40 s)) (JStr s)
           | JObj o =>
               suggestion
                 (or_else (dict_get o (lit "id")) (fallback_id i))
                 (or_else (dict_get o (lit "title"))
                    (or_else (dict_get o (lit "description"))
                       (JStr (lit "Suggestion"))))
                 (or_else (dict_get o (lit "detail"))
                    (or_else (dict_get o (lit "description")) (JStr (lit ""))))
           | other =>
               suggestion (fallback_id i) (JStr (lit "Suggestion"))
                 (JStr (py_str isprintable other))
           end.
Proof.
  exists (entries_from isprintable 0 xs); split.
  - unfold normalize_suggestions; simpl.
    now rewrite normalize_suggestions_loop_spec.
  - intros i x Hx. rewrite entries_from_nth, Hx; simpl.
    destruct x; reflexivity.
Qed.

(** C6.  For every list [xs] the output has the length of [xs], and its
    entry at each index comes from the item of [xs] at that index: nothing
    is dropped and the order is kept. *)
Theorem normalize_suggestions_length_order (xs : list json) :
  exists out,
    normalize_suggestions isprintable (JList xs) = Ok out
    /\ length out = length xs
    /\ forall i, nth_error out i
                 = option_map (suggestion_spec isprintable i) (nth_error xs i).
Proof.
  exists (entries_from isprintable 0 xs); repeat split.
  - unfold normalize_suggestions; simpl.
    now rewrite normalize_suggestions_loop_spec.
  - apply entries_from_length.
  - intros i. apply entries_from_nth.
Qed.

(** Whatever can be iterated over is normalised, item for item. *)
Lemma normalize_suggestions_iterable (v : json) (items : list json) :
  py_iter v = Ok items ->
  normalize_suggestions isprintable v = Ok (entries_from isprintable 0 items).
Proof.
  intros H; unfold normalize_suggestions; rewrite H; simpl.
  now rewrite normalize_suggestions_loop_spec.
Qed.

End Suggestions.

(** The specification's two examples. *)
Example normalize_suggestions_string_case (isprintable : char -> bool) :
  normalize_suggestions isprintable (JList [JStr (lit "fix bug")])
  = Ok [JObj [(lit "id", JStr (lit "S1"));
              (lit "title", JStr (lit "fix bug"));
              (lit "detail", JStr (lit "fix bug"))]].
Proof. reflexivity. Qed.

Example normalize_suggestions_dict_fallback (isprintable : char -> bool) :
  normalize_suggestions isprintable
    (JList [JObj [(lit "description", JStr (lit "x"))]])
  = Ok [JObj [(lit "id", JStr (lit "S1"));
              (lit "title", JStr (lit "x"));
              (lit "detail", JStr (lit "x"))]].
Proof. reflexivity. Qed.

(** A key that is present keeps its value, also a null or an empty one;
    the fallbacks are for keys that are missing. *)
Example normalize_suggestions_present_fields (isprintable : char -> bool) :
  normalize_suggestions isprintable
    (JList [JObj [(lit "id", JNull); (lit "title", JStr (lit ""));
                  (lit "description", JStr (lit "d"))]])
  = Ok [suggestion JNull (JStr (lit "")) (JStr (lit "d"))].
Proof. reflexivity. Qed.

(** Other values go through [str]: a number, a boolean, [None], a nested
    list. *)
Example normalize_suggestions_other_values (isprintable : char -> bool) :
  normalize_suggestions isprintable
    (JList [JInt 5; JBool true; JNull; JList [JInt 1; JStr (lit "a")]])
  = Ok [suggestion (JStr (lit "S1")) (JStr (lit "Suggestion")) (JStr (lit "5"));
        suggestion (JStr (lit "S2")) (JStr (lit "Suggestion"))
          (JStr (lit "True"));
        suggestion (JStr (lit "S3")) (JStr (lit "Suggestion"))
          (JStr (lit "None"));
        suggestion (JStr (lit "S4")) (JStr (lit "Suggestion"))
          (JStr (lit "[1, 'a']"))].
Proof. reflexivity. Qed.

(* ===================================================================== *)
(** * normalize_metrics *)
(* ===================================================================== *)

(** [code.count("\n")] is the number of newline characters of [code]. *)
Lemma count_fuel_char (c : char) : forall fuel s,
  length s <= fuel -> count_fuel fuel [c] s = count_occ N.eq_dec s c.
Proof.
  induction fuel as [|fuel IH]; intros [|x r] Hlen; simpl in *; try lia; auto.
  rewrite (IH r) by lia.
  destruct (N.eqb_spec c x) as [E|E]; destruct (N.eq_dec x c);
    simpl; congruence.
Qed.

Lemma count_newlines (code : str) : count code [NEWLINE] = newlines code.
Proof. unfold count, newlines. now apply count_fuel_char. Qed.

(** On an object [normalize_metrics] returns an object with the six
    keys. *)
Lemma normalize_metrics_returns (raw : dict) (language : json) (code : str) :
  exists m, normalize_metrics (JObj raw) language code = Ok (JObj m)
            /\ keys m = metrics_keys.
Proof. eexists. split; reflexivity. Qed.

(** C7.  For every raw metrics object, language and code, with
    [loc = (number of newline characters in code) + 1]: [loc_before] is
    [raw["Lines of Code Before"]] or [loc], [loc_after] is
    [raw["Lines of Code After"]] or [loc], [reduction] is
    [raw["Lines of Code Reduced"]] or [0], [redundant_removed] is
    [raw["Redundant Variables Removed"]] or null, [security_improved] is
    [raw["String Input Security Improved"]] or false, and [language] is the
    caller's value whatever [raw] holds.  ("or": the field when its key is
    in [raw].) *)
Theorem normalize_metrics_fields (raw : dict) (language : json) (code : str) :
  let loc := JInt (Z.of_nat (newlines code + 1)) in
  exists m,
    normalize_metrics (JObj raw) language code = Ok (JObj m)
    /\ keys m = [lit "language"; lit "loc_before"; lit "loc_after";
                 lit "reduction"; lit "redundant_removed";
                 lit "security_improved"]
    /\ dict_get m (lit "language") = Some language
    /\ dict_get m (lit "loc_before")
       = Some (or_else (dict_get raw (lit "Lines of Code Before")) loc)
    /\ dict_get m (lit "loc_after")
       = Some (or_else (dict_get raw (lit "Lines of Code After")) loc)
    /\ dict_get m (lit "reduction")
       = Some (or_else (dict_get raw (lit "Lines of Code Reduced")) (JInt 0))
    /\ dict_get m (lit "redundant_removed")
       = Some (or_else (dict_get raw (lit "Redundant Variables Removed")) JNull)
    /\ dict_get m (lit "security_improved")
       = Some (or_else (dict_get raw (lit "String Input Security Improved"))
                 (JBool false)).
Proof.
  intros loc. eexists. split.
  - unfold normalize_metrics; simpl. rewrite count_newlines. reflexivity.
  - repeat split; reflexivity.
Qed.

(** The specification's example: three lines of code and no raw metrics. *)
Example normalize_metrics_defaults :
  normalize_metrics (JObj []) (JStr (lit "c")) [97; 10; 98; 10; 99]%N
  = Ok (JObj [(lit "language", JStr (lit "c"));
              (lit "loc_before", JInt 3);
              (lit "loc_after", JInt 3);
              (lit "reduction", JInt 0);
              (lit "redundant_removed", JNull);
              (lit "security_improved", JBool false)]).
Proof. reflexivity. Qed.

(** A [language] key of the raw metrics is not read. *)
Example normalize_metrics_language_not_from_raw :
  normalize_metrics
    (JObj [(lit "language", JStr (lit "rust"));
           (lit "Lines of Code Reduced", JInt 4)])
    (JStr (lit "c")) (lit "x")
  = Ok (JObj [(lit "language", JStr (lit "c"));
              (lit "loc_before", JInt 1);
              (lit "loc_after", JInt 1);
              (lit "reduction", JInt 4);
              (lit "redundant_removed", JNull);
              (lit "security_improved", JBool false)]).
Proof. reflexivity. Qed.

(* ===================================================================== *)
(** * extract_json: the search for the block *)
(* ===================================================================== *)

Lemma brace_depth_app (a b : str) :
  brace_depth (a ++ b) = (brace_depth a + brace_depth b)%Z.
Proof. induction a as [|x a IH]; simpl; [reflexivity | rewrite IH; lia]. Qed.

Lemma brace_depth_snoc (a : str) (x : char) :
  brace_depth (a ++ [x]) = (brace_depth a + brace_step x)%Z.
Proof. rewrite brace_depth_app; simpl; lia. Qed.

Lemma firstn_snoc (done todo : str) (x : char) :
  firstn (S (length done)) (done ++ x :: todo) = done ++ [x].
Proof.
  induction done as [|y done IH]; [reflexivity|].
  change (firstn (S (S (length done))) (y :: (done ++ x :: todo))
          = y :: (done ++ [x])).
  rewrite firstn_cons. now f_equal.
Qed.

(** [find] returns the index of the first occurrence. *)
Lemma find_from_absent (c : char) (s : str) : forall i,
  ~ In c s -> find_from c s i = (-1)%Z.
Proof.
  induction s as [|x r IH]; intros i Hin; simpl; auto.
  destruct (N.eqb_spec x c) as [->|Hxc].
  - exfalso; apply Hin; now left.
  - apply IH; intros H; apply Hin; now right.
Qed.

Lemma find_from_first (c : char) (before rest : str) : forall i,
  ~ In c before ->
  find_from c (before ++ c :: rest) i = (i + Z.of_nat (length before))%Z.
Proof.
  induction before as [|x r IH]; intros i Hin; simpl.
  - rewrite N.eqb_refl; lia.
  - destruct (N.eqb_spec x c) as [->|Hxc].
    + exfalso; apply Hin; now left.
    + rewrite IH by (intros H; apply Hin; now right). lia.
Qed.

Lemma first_occurrence (c : char) (s : str) :
  In c s -> exists before rest, s = before ++ c :: rest /\ ~ In c before.
Proof.
  induction s as [|x r IH]; intros Hin; [destruct Hin|].
  destruct (N.eq_dec x c) as [->|Hxc].
  - exists [], r; split; auto.
  - destruct IH as (before & rest & -> & Hb).
    + destruct Hin; [contradiction | assumption].
    + exists (x :: before), rest; split; auto.
      intros [H|H]; [contradiction | auto].
Qed.

(** Before it first comes back to zero the depth of a block stays
    positive. *)
Lemma positive_until_closed (r : str) : forall n,
  (forall k, 0 < k <= n -> brace_depth (firstn k (LBRACE :: r)) <> 0%Z) ->
  forall k, 0 < k <= n -> k <= length (LBRACE :: r) ->
    (0 < brace_depth (firstn k (LBRACE :: r)))%Z.
Proof.
  intros n Hnz k; induction k as [|k IH]; intros Hk Hlen; [lia|].
  destruct k as [|k]; [reflexivity|].
  assert (Hprev : (0 < brace_depth (firstn (S k) (LBRACE :: r)))%Z)
    by (apply IH; lia).
  assert (Hcur := Hnz (S (S k)) Hk).
  remember (LBRACE :: r) as c eqn:Ec.
  assert (Hsplit : exists x todo, c = firstn (S k) c ++ x :: todo).
  { destruct (skipn (S k) c) as [|x todo] eqn:Es.
    - apply (f_equal (@length _)) in Es. rewrite length_skipn in Es.
      simpl in Es. lia.
    - exists x, todo. now rewrite <- Es, firstn_skipn. }
  destruct Hsplit as (x & todo & Hc).
  assert (Hl : length (firstn (S k) c) = S k) by (rewrite length_firstn; lia).
  assert (Hfs : firstn (S (S k)) c = firstn (S k) c ++ [x]).
  { rewrite Hc at 1. rewrite <- Hl at 1. apply firstn_snoc. }
  rewrite Hfs in Hcur |- *. rewrite brace_depth_snoc in Hcur |- *.
  unfold brace_step in *.
  destruct (N.eqb x LBRACE); [lia|]. destruct (N.eqb x RBRACE); lia.
Qed.

Section Search.

(** The text [t] searched, cut at its first opening brace. *)
Variables (t before rest : str).
Hypothesis Ht : t = before ++ LBRACE :: rest.
Hypothesis Hbefore : ~ In LBRACE before.

Let start := length before.
Let s := LBRACE :: rest.

Lemma find_start : find t LBRACE = Z.of_nat start.
Proof. unfold find; rewrite Ht, find_from_first; auto. Qed.

Lemma skipn_start : skipn start t = s.
Proof.
  unfold start, s. rewrite Ht, skipn_app, skipn_all, Nat.sub_diag. reflexivity.
Qed.

Lemma slice_start (n : nat) : slice t start (start + n) = firstn n s.
Proof.
  unfold slice. rewrite skipn_start. f_equal. lia.
Qed.

(** A run of the loop over a block that closes after [n] characters. *)
Lemma loop_closes (n : nat) :
  0 < n <= length s ->
  brace_depth (firstn n s) = 0%Z ->
  (forall k, 0 < k < n -> brace_depth (firstn k s) <> 0%Z) ->
  forall todo done,
    s = done ++ todo -> length done < n ->
    extract_json_loop t start todo (start + length done) (brace_depth done)
    = json_loads (firstn n s).
Proof.
  intros Hn Hzero Hnz.
  assert (Hpos : forall k, 0 < k < n -> (0 < brace_depth (firstn k s))%Z).
  { intros k Hk. apply (@positive_until_closed rest (n - 1)).
    - intros j Hj. apply Hnz. lia.
    - lia.
    - fold s. lia. }
  induction todo as [|x todo IH]; intros done Hs Hdone.
  - rewrite app_nil_r in Hs. subst done. lia.
  - assert (Hfs : firstn (S (length done)) s = done ++ [x])
      by (rewrite Hs; apply firstn_snoc).
    assert (Hstep : brace_depth (firstn (S (length done)) s)
                    = (brace_depth done + brace_step x)%Z)
      by (rewrite Hfs; apply brace_depth_snoc).
    assert (Hnext : s = (done ++ [x]) ++ todo)
      by (rewrite <- app_assoc; exact Hs).
    assert (Hidx : S (start + length done) = start + length (done ++ [x]))
      by (rewrite length_app; simpl; lia).
    assert (Hdone0 : done = [] -> x = LBRACE).
    { intros ->. simpl in Hs. unfold s in Hs. congruence. }
    assert (Hdpos : done <> [] -> (0 < brace_depth done)%Z).
    { intros Hne. assert (Hd : firstn (length done) s = done)
        by (rewrite Hs, firstn_app, Nat.sub_diag, firstn_all; simpl;
            apply app_nil_r).
      rewrite <- Hd at 1. apply Hpos.
      destruct done; [congruence | simpl; simpl in Hdone; lia]. }
    simpl. unfold brace_step in Hstep.
    destruct (N.eqb_spec x LBRACE) as [->|Hxl].
    + (* an opening brace *)
      assert (Hlt : S (length done) < n).
      { destruct (Nat.eq_dec (S (length done)) n) as [E|E]; [|lia].
        rewrite <- E in Hzero. rewrite Hzero in Hstep.
        destruct done as [|y done'].
        - simpl in Hstep. lia.
        - assert (0 < brace_depth (y :: done'))%Z
            by (apply Hdpos; discriminate). lia. }
      rewrite Hidx.
      replace (brace_depth done + 1)%Z with (brace_depth (done ++ [LBRACE]))
        by (rewrite brace_depth_snoc; reflexivity).
      apply IH; [exact Hnext | rewrite length_app; simpl; lia].
    + destruct (N.eqb_spec x RBRACE) as [->|Hxr].
      * (* a closing brace *)
        destruct (Z.eqb_spec (brace_depth done - 1) 0) as [Hz|Hz].
        -- assert (E : S (length done) = n).
           { destruct (Nat.eq_dec (S (length done)) n) as [E|E]; [exact E|].
             exfalso. apply (Hnz (S (length done))); [lia|].
             rewrite Hstep. lia. }
           replace (start + length done + 1) with (start + n) by lia.
           now rewrite slice_start.
        -- assert (Hlt : S (length done) < n).
           { destruct (Nat.eq_dec (S (length done)) n) as [E|E]; [|lia].
             rewrite <- E in Hzero. rewrite Hzero in Hstep. lia. }
           rewrite Hidx.
           replace (brace_depth done - 1)%Z
             with (brace_depth (done ++ [RBRACE]))
             by (rewrite brace_depth_snoc; reflexivity).
           apply IH; [exact Hnext | rewrite length_app; simpl; lia].
      * (* any other character *)
        assert (Hlt : S (length done) < n).
        { destruct (Nat.eq_dec (S (length done)) n) as [E|E]; [|lia].
          rewrite <- E in Hzero. rewrite Hzero in Hstep.
          destruct done as [|y done'].
          - exfalso. apply Hxl. now apply Hdone0.
          - assert (0 < brace_depth (y :: done'))%Z
              by (apply Hdpos; discriminate). lia. }
        rewrite Hidx.
        replace (brace_depth done) with (brace_depth (done ++ [x])) at 1
          by (rewrite brace_depth_snoc; unfold brace_step;
              destruct (N.eqb_spec x LBRACE); [contradiction|];
              destruct (N.eqb_spec x RBRACE); [contradiction|]; lia).
        apply IH; [exact Hnext | rewrite length_app; simpl; lia].
Qed.

(** A run of the loop over a text whose depth never comes back to zero. *)
Lemma loop_never_closes :
  (forall k, 0 < k <= length s -> brace_depth (firstn k s) <> 0%Z) ->
  forall todo done i,
    s = done ++ todo ->
    extract_json_loop t start todo i (brace_depth done)
    = Raise (ValueError (lit "Could not match complete JSON")).
Proof.
  intros Hnz. induction todo as [|x todo IH]; intros done i Hs; [reflexivity|].
  assert (Hfs : firstn (S (length done)) s = done ++ [x])
    by (rewrite Hs; apply firstn_snoc).
  assert (Hcur : brace_depth (done ++ [x]) <> 0%Z).
  { rewrite <- Hfs. apply Hnz. rewrite Hs, length_app. simpl. lia. }
  assert (Hnext : s = (done ++ [x]) ++ todo)
    by (rewrite <- app_assoc; exact Hs).
  rewrite brace_depth_snoc in Hcur.
  specialize (IH (done ++ [x]) (S i) Hnext).
  rewrite brace_depth_snoc in IH.
  simpl. unfold brace_step in *.
  destruct (N.eqb x LBRACE); [exact IH|].
  destruct (N.eqb x RBRACE).
  - replace (brace_depth done - 1)%Z with (brace_depth done + -1)%Z by lia.
    destruct (Z.eqb_spec (brace_depth done + -1) 0); [contradiction | exact IH].
  - replace (brace_depth done) with (brace_depth done + 0)%Z at 1 by lia.
    exact IH.
Qed.

End Search.

(** ** The three outcomes of the search *)

Lemma extract_json_no_brace (text : str) :
  ~ In LBRACE (strip_fences text) ->
  extract_json text
  = Raise (ValueError (lit "No JSON detected in LLM response")).
Proof.
  intros Hno. unfold extract_json, find.
  now rewrite (find_from_absent _ _ 0%Z Hno).
Qed.

Lemma extract_json_at_brace (text before rest : str) :
  strip_fences text = before ++ LBRACE :: rest ->
  ~ In LBRACE before ->
  extract_json text
  = extract_json_loop (strip_fences text) (length before) (LBRACE :: rest)
      (length before) 0%Z.
Proof.
  intros Ht Hb. unfold extract_json.
  rewrite (find_start _ _ _ Ht Hb).
  destruct (Z.eqb_spec (Z.of_nat (length before)) (-1)) as [E|_]; [lia|].
  rewrite Nat2Z.id. now rewrite (skipn_start _ _ _ Ht).
Qed.

Lemma extract_json_never_closed (text : str) :
  never_closed (strip_fences text) ->
  extract_json text = Raise (ValueError (lit "Could not match complete JSON")).
Proof.
  intros (before & rest & Ht & Hb & Hnz).
  rewrite (extract_json_at_brace _ _ _ Ht Hb).
  exact (loop_never_closes (strip_fences text) before rest Hnz
           (LBRACE :: rest) [] (length before) eq_refl).
Qed.

Lemma extract_json_candidate (text c : str) :
  candidate (strip_fences text) c -> extract_json text = json_loads c.
Proof.
  intros (before & after & Ht & Hb & (r & ->) & Hzero & Hnz).
  change ((LBRACE :: r) ++ after) with (LBRACE :: (r ++ after)) in Ht.
  rewrite (extract_json_at_brace _ _ _ Ht Hb).
  set (n := length (LBRACE :: r)).
  assert (Hfirst : forall k, k <= n ->
            firstn k (LBRACE :: r ++ after) = firstn k (LBRACE :: r)).
  { intros k Hk. change (LBRACE :: r ++ after) with ((LBRACE :: r) ++ after).
    rewrite firstn_app. replace (k - length (LBRACE :: r)) with 0 by (fold n; lia).
    simpl firstn at 2. apply app_nil_r. }
  assert (Hn : firstn n (LBRACE :: r ++ after) = LBRACE :: r).
  { rewrite Hfirst by lia. apply firstn_all. }
  assert (Hlen : 0 < n <= length (LBRACE :: r ++ after))
    by (unfold n; simpl; rewrite length_app; lia).
  assert (Hz : brace_depth (firstn n (LBRACE :: r ++ after)) = 0%Z)
    by now rewrite Hn.
  assert (Hmin : forall k, 0 < k < n ->
            brace_depth (firstn k (LBRACE :: r ++ after)) <> 0%Z).
  { intros k Hk. rewrite Hfirst by lia. apply Hnz. fold n. lia. }
  pose proof (loop_closes (strip_fences text) before (r ++ after) Ht n
                Hlen Hz Hmin (LBRACE :: r ++ after) [] eq_refl (proj1 Hlen))
    as Hrun.
  change (length (@nil char)) with 0 in Hrun.
  change (brace_depth []) with 0%Z in Hrun.
  rewrite Nat.add_0_r in Hrun.
  rewrite Hrun. f_equal. exact Hn.
Qed.

(** The depth of a text either never comes back to zero or does so for a
    first time. *)
Lemma first_return_to_zero (s : str) : forall m,
  (forall k, 0 < k <= m -> brace_depth (firstn k s) <> 0%Z)
  \/ exists n, 0 < n <= m /\ brace_depth (firstn n s) = 0%Z
               /\ forall k, 0 < k < n -> brace_depth (firstn k s) <> 0%Z.
Proof.
  induction m as [|m [IH|(n & Hn & Hz & Hmin)]].
  - left; intros k Hk; lia.
  - destruct (Z.eq_dec (brace_depth (firstn (S m) s)) 0) as [Hz|Hz].
    + right; exists (S m); repeat split; try lia; auto.
      intros k Hk; apply IH; lia.
    + left; intros k Hk.
      destruct (Nat.eq_dec k (S m)) as [->|Hne]; [exact Hz | apply IH; lia].
  - right; exists n; repeat split; auto; lia.
Qed.

(** Every text is of exactly one of three kinds; here, of at least one. *)
Lemma search_cases (t : str) :
  ~ In LBRACE t \/ never_closed t \/ exists c, candidate t c.
Proof.
  destruct (in_dec N.eq_dec LBRACE t) as [Hin|Hno]; [|now left].
  right. destruct (first_occurrence _ _ Hin) as (before & rest & Ht & Hb).
  destruct (first_return_to_zero (LBRACE :: rest) (length (LBRACE :: rest)))
    as [Hnz|(n & Hn & Hz & Hmin)].
  - left. now exists before, rest.
  - right. exists (firstn n (LBRACE :: rest)), before, (skipn n (LBRACE :: rest)).
    repeat split; auto.
    + now rewrite firstn_skipn.
    + destruct n as [|n]; [lia|]. now exists (firstn n rest).
    + intros k Hk. rewrite length_firstn in Hk.
      rewrite firstn_firstn. replace (Nat.min k n) with k by lia.
      apply Hmin. lia.
Qed.

(** The first occurrence of a character cuts a text in one way only. *)
Lemma first_occurrence_unique (c : char) (b1 r1 b2 r2 : str) :
  b1 ++ c :: r1 = b2 ++ c :: r2 -> ~ In c b1 -> ~ In c b2 ->
  b1 = b2 /\ r1 = r2.
Proof.
  revert b2. induction b1 as [|x b1 IH]; intros [|y b2] H H1 H2; simpl in H.
  - split; congruence.
  - exfalso. apply H2. left. congruence.
  - exfalso. apply H1. left. congruence.
  - injection H as -> H.
    destruct (IH b2 H) as [-> ->].
    + intros Hin; apply H1; now right.
    + intros Hin; apply H2; now right.
    + split; reflexivity.
Qed.

(** A text has at most one candidate. *)
Theorem candidate_unique (t c1 c2 : str) :
  candidate t c1 -> candidate t c2 -> c1 = c2.
Proof.
  intros (b1 & a1 & H1 & Hb1 & (r1 & ->) & Hz1 & Hn1)
         (b2 & a2 & H2 & Hb2 & (r2 & ->) & Hz2 & Hn2).
  rewrite H1 in H2. simpl in H2.
  destruct (first_occurrence_unique _ _ _ _ _ H2 Hb1 Hb2) as [_ Hrest].
  assert (Hsame : (LBRACE :: r1) ++ a1 = (LBRACE :: r2) ++ a2)
    by (simpl; now f_equal).
  assert (Hprefix : forall (x y ax ay : str),
            x ++ ax = y ++ ay -> length x <= length y ->
            firstn (length x) y = x).
  { intros x y ax ay E Hl.
    apply (f_equal (firstn (length x))) in E.
    rewrite firstn_app, Nat.sub_diag, firstn_all in E. simpl in E.
    rewrite app_nil_r in E.
    rewrite firstn_app in E. replace (length x - length y) with 0 in E by lia.
    simpl in E. rewrite app_nil_r in E. now symmetry. }
  destruct (Nat.lt_trichotomy (length (LBRACE :: r1)) (length (LBRACE :: r2)))
    as [Hlt|[Heq|Hgt]].
  - exfalso. apply (Hn2 (length (LBRACE :: r1))); [simpl in *; lia|].
    rewrite (Hprefix _ _ _ _ Hsame) by lia. exact Hz1.
  - rewrite <- (Hprefix _ _ _ _ Hsame) by lia.
    rewrite Heq. apply firstn_all.
  - exfalso. apply (Hn1 (length (LBRACE :: r2))); [simpl in *; lia|].
    rewrite (Hprefix _ _ _ _ (eq_sym Hsame)) by lia. exact Hz2.
Qed.

(** The candidate of a text with an object between two words. *)
Lemma candidate_unique_witness : jlit "{'a':1}" = jlit "{'a':1}".
Proof.
  apply (candidate_unique (jlit "x {'a':1} y"));
    (exists (lit "x "), (lit " y"); split; [reflexivity|];
     split; [vm_compute; intuition discriminate|];
     split; [eexists; vm_compute; reflexivity|];
     split; [vm_compute; reflexivity|];
     intros n Hn;
     do 7 (destruct n as [|n]; [try lia; vm_compute; discriminate|]);
     vm_compute in Hn; lia).
Defined.

(** C2.  When the text left after trimming and fence stripping holds a
    block that starts at its first opening brace and ends where the brace
    depth first comes back to zero, [extract_json] returns what
    [json.loads] returns on that block: the text before the block and
    whatever follows it, later objects included, play no part. *)
Theorem extract_json_parses_first_block (text before c after : str) :
  strip_fences text = before ++ c ++ after ->
  ~ In LBRACE before ->
  balanced_block c ->
  extract_json text = json_loads c.
Proof.
  intros Ht Hb Hc. apply extract_json_candidate.
  now exists before, after.
Qed.

(** C3.  [extract_json] raises [e] exactly when, in the text left after
    fence stripping, there is no opening brace (a [ValueError], "No JSON
    detected in LLM response"), or the depth never comes back to zero (a
    [ValueError], "Could not match complete JSON"), or [json.loads] raises
    [e] on the candidate block. *)
Theorem extract_json_raises_iff (text : str) (e : exn) :
  extract_json text = Raise e
  <-> (~ In LBRACE (strip_fences text)
       /\ e = ValueError (lit "No JSON detected in LLM response"))
      \/ (never_closed (strip_fences text)
          /\ e = ValueError (lit "Could not match complete JSON"))
      \/ (exists c, candidate (strip_fences text) c /\ json_loads c = Raise e).
Proof.
  split.
  - intros He.
    destruct (search_cases (strip_fences text)) as [Hno|[Hnc|(c & Hc)]].
    + left; split; auto.
      rewrite (extract_json_no_brace _ Hno) in He. congruence.
    + right; left; split; auto.
      rewrite (extract_json_never_closed _ Hnc) in He. congruence.
    + right; right; exists c; split; auto.
      now rewrite <- (extract_json_candidate _ _ Hc).
  - intros [(Hno & ->)|[(Hnc & ->)|(c & Hc & He)]].
    + now apply extract_json_no_brace.
    + now apply extract_json_never_closed.
    + now rewrite (extract_json_candidate _ _ Hc).
Qed.

(** C2, at a concrete text: prose, a nested object, a second object. *)
Lemma extract_json_parses_first_block_witness :
  extract_json (jlit "Sure! {'a': {'b': 1}} and {'c': 2}")
  = json_loads (jlit "{'a': {'b': 1}}").
Proof.
  apply (extract_json_parses_first_block _ (lit "Sure! ") _
           (jlit " and {'c': 2}")).
  - vm_compute. reflexivity.
  - vm_compute. intuition discriminate.
  - split; [|split].
    + eexists. vm_compute. reflexivity.
    + vm_compute. reflexivity.
    + intros n Hn.
      do 15 (destruct n as [|n]; [try lia; vm_compute; discriminate|]).
      vm_compute in Hn. lia.
Defined.

(** The specification's examples of extraction. *)
Example extract_json_code_fence :
  extract_json (lit "```json" ++ [NEWLINE] ++ jlit "{'a':1}" ++ [NEWLINE]
                  ++ lit "```")
  = Ok (JObj [(lit "a", JInt 1)]).
Proof. vm_compute. reflexivity. Qed.

Example extract_json_noise :
  extract_json (lit "Sure! Here is the result:" ++ [NEWLINE]
                  ++ jlit "{'a':1}" ++ [NEWLINE] ++ lit "Hope that helps.")
  = Ok (JObj [(lit "a", JInt 1)]).
Proof. vm_compute. reflexivity. Qed.

Example extract_json_nested :
  extract_json (jlit "{'a':{'b':1}}")
  = Ok (JObj [(lit "a", JObj [(lit "b", JInt 1)])]).
Proof. vm_compute. reflexivity. Qed.

Example extract_json_no_json :
  extract_json (lit "no json here")
  = Raise (ValueError (lit "No JSON detected in LLM response")).
Proof. vm_compute. reflexivity. Qed.

Example extract_json_incomplete :
  extract_json (jlit "{'a':1")
  = Raise (ValueError (lit "Could not match complete JSON")).
Proof. vm_compute. reflexivity. Qed.

(** A brace inside a string of the object ends the block early, and the
    parse error is what [extract_json] raises. *)
Example extract_json_brace_in_string :
  extract_json (jlit "{'a': 'x}y'}")
  = Raise (JSONDecodeError (lit "Unterminated string starting at")
             (jlit "{'a': 'x}") 6).
Proof. vm_compute. reflexivity. Qed.

(* ===================================================================== *)
(** * extract_json returns objects *)
(* ===================================================================== *)

Lemma parse_object_is_object : forall fuel s d v rest,
  Decoder.parse_object fuel s d = Ok (v, rest) -> exists d', v = JObj d'.
Proof.
  induction fuel as [|fuel IH]; intros s d v rest H; simpl in H;
    [discriminate|].
  destruct s as [|c r]; [discriminate|].
  destruct (N.eqb c QUOTE); [|discriminate].
  unfold bind in H.
  destruct (Decoder.scanstring _ r []) as [[key s1]|]; [|discriminate].
  destruct (Decoder.skip_ws s1) as [|colon s2]; [discriminate|].
  destruct (N.eqb colon 58); [|discriminate].
  destruct (Decoder.scan_once fuel _) as [[val s3]|]; [|discriminate].
  destruct (Decoder.skip_ws s3) as [|c4 s4]; [discriminate|].
  destruct (N.eqb c4 RBRACE).
  - inversion H; subst. eauto.
  - destruct (N.eqb c4 44); [|discriminate]. eapply IH; eauto.
Qed.

Lemma scan_once_brace_is_object (fuel : nat) (r : str) v rest :
  Decoder.scan_once fuel (LBRACE :: r) = Ok (v, rest) -> exists d, v = JObj d.
Proof.
  destruct fuel as [|fuel]; simpl; [discriminate|].
  destruct (Decoder.skip_ws r) as [|c' r'] eqn:Ews.
  - apply parse_object_is_object.
  - destruct (N.eqb c' RBRACE).
    + intros H; inversion H; subst. eauto.
    + apply parse_object_is_object.
Qed.

Lemma json_loads_brace_is_object (r : str) (v : json) :
  json_loads (LBRACE :: r) = Ok v -> exists d, v = JObj d.
Proof.
  unfold json_loads.
  change (startswith [65279%N] (LBRACE :: r)) with false.
  change (Decoder.skip_ws (LBRACE :: r)) with (LBRACE :: r).
  cbv iota.
  destruct (Decoder.scan_once _ (LBRACE :: r)) as [[v' rest]|e] eqn:Hscan.
  - destruct (Decoder.skip_ws rest); [|discriminate].
    intros H; inversion H; subst.
    eapply scan_once_brace_is_object; eauto.
  - destruct e; discriminate.
Qed.

(** C10.  Whenever [extract_json] returns, what it returns is a JSON
    object, never a scalar, a string or a list: the candidate starts with
    an opening brace.  So the handler's [setdefault] is always applicable
    to it. *)
Theorem extract_json_returns_object (text : str) (v : json) :
  extract_json text = Ok v ->
  exists d, v = JObj d
            /\ forall k x, py_setdefault v k x = Ok (dict_setdefault d k x).
Proof.
  intros H.
  destruct (search_cases (strip_fences text)) as [Hno|[Hnc|(c & Hc)]].
  - rewrite (extract_json_no_brace _ Hno) in H. discriminate.
  - rewrite (extract_json_never_closed _ Hnc) in H. discriminate.
  - rewrite (extract_json_candidate _ _ Hc) in H.
    destruct Hc as (_ & _ & _ & _ & (r & ->) & _).
    destruct (json_loads_brace_is_object _ _ H) as (d & ->).
    exists d; split; reflexivity.
Qed.

(** C10, at a text with an object between two words. *)
Lemma extract_json_returns_object_witness :
  exists d, JObj [(lit "a", JInt 1)] = JObj d
            /\ forall k x,
                 py_setdefault (JObj [(lit "a", JInt 1)]) k x
                 = Ok (dict_setdefault d k x).
Proof.
  apply (extract_json_returns_object (jlit "Here: {'a': 1} done")).
  vm_compute. reflexivity.
Defined.

(* ===================================================================== *)
(** * The decoder's fuel is enough *)
(* ===================================================================== *)

Lemma skip_ws_length (s : str) : length (Decoder.skip_ws s) <= length s.
Proof.
  induction s as [|c r IH]; simpl; auto.
  destruct (Decoder.is_ws c); simpl; lia.
Qed.

Lemma scan_fine_mono {A : Type} (n m : nat) (o : Decoder.scan (A * str)) :
  n <= m -> scan_fine n o -> scan_fine m o.
Proof. destruct o as [[a rest]|e]; simpl; auto. lia. Qed.

Ltac head_match :=
  match goal with
  | |- scan_fine _ (match ?x with _ => _ end) => destruct x eqn:?
  end.

(** [scanstring] reads at least the closing quote. *)
Lemma scanstring_progress : forall n s, length s <= n ->
  forall b acc, scan_fine (length s) (Decoder.scanstring b s acc).
Proof.
  induction n as [|n IH]; intros s Hlen b acc.
  - destruct s; [|simpl in Hlen; lia]. simpl. discriminate.
  - destruct s as [|c r]; [simpl; discriminate|].
    cbn [length] in Hlen.
    cbn delta [Decoder.scanstring] fix beta match.
    repeat head_match; subst;
      try (simpl; discriminate); try (simpl; lia);
      (eapply scan_fine_mono; [|apply IH]; simpl in *; lia).
Qed.

Lemma span_digits_length (s : str) :
  length (snd (Decoder.span_digits s)) <= length s.
Proof.
  induction s as [|c r IH]; simpl; auto.
  destruct (Decoder.is_digit c); simpl; auto.
  destruct (Decoder.span_digits r); simpl in *. lia.
Qed.

Lemma match_frac_progress (s fs rest : str) :
  Decoder.match_frac s = Some (fs, rest) -> length rest < length s.
Proof.
  unfold Decoder.match_frac.
  destruct s as [|dot [|d r]]; try discriminate.
  destruct (_ && _); [|discriminate].
  pose proof (span_digits_length r) as H.
  destruct (Decoder.span_digits r); simpl in *.
  intros [= <- <-]. lia.
Qed.

Lemma match_exp_progress (s rest : str) (x : Z) :
  Decoder.match_exp s = Some (x, rest) -> length rest < length s.
Proof.
  unfold Decoder.match_exp.
  destruct s as [|e r]; [discriminate|].
  destruct (_ || _); [|discriminate].
  assert (H : forall neg r1, length r1 <= length r ->
            match Decoder.span_digits r1 with
            | ([], _) => None
            | (ds, rest0) =>
                Some ((if neg : bool then - Decoder.Z_of_digits ds
                       else Decoder.Z_of_digits ds)%Z, rest0)
            end = Some (x, rest) -> length rest < length (e :: r)).
  { intros neg r1 Hr1. pose proof (span_digits_length r1) as H.
    destruct (Decoder.span_digits r1) as [[|d ds] rest0]; [discriminate|].
    simpl in *. intros [= _ <-]. lia. }
  destruct r as [|sg r']; [apply (H false); auto|].
  destruct (N.eqb sg 45); [apply (H true); simpl; lia|].
  destruct (N.eqb sg 43); apply (H false); simpl; lia.
Qed.

Lemma match_number_progress (s rest : str) (v : json) :
  Decoder.match_number s = Some (v, rest) -> length rest < length s.
Proof.
  unfold Decoder.match_number.
  set (sign := match s with
               | [] => (false, s)
               | c :: r => if N.eqb c 45 then (true, r) else (false, s)
               end).
  assert (Hsign : length (snd sign) <= length s).
  { unfold sign. destruct s as [|c r]; simpl; auto.
    destruct (N.eqb c 45); simpl; lia. }
  destruct sign as [neg s1]. simpl in Hsign.
  destruct s1 as [|c r]; [discriminate|].
  set (int_part := if ((49 <=? c) && (c <=? 57))%N
                   then let '(ds, rest0) := Decoder.span_digits r in
                        Some (c :: ds, rest0)
                   else if N.eqb c 48 then Some ([c], r) else None).
  assert (Hint : forall ds rest0, int_part = Some (ds, rest0) ->
                   length rest0 <= length r).
  { unfold int_part. intros ds rest0.
    destruct (_ && _).
    - pose proof (span_digits_length r) as H.
      destruct (Decoder.span_digits r); simpl in *. intros [= _ <-]. lia.
    - destruct (N.eqb c 48); [|discriminate]. intros [= _ <-]. lia. }
  destruct int_part as [[ds rest0]|]; [|discriminate].
  specialize (Hint ds rest0 eq_refl).
  assert (Hfrac : forall fs r1, Decoder.match_frac rest0 = Some (fs, r1) ->
                    length r1 < length rest0)
    by (intros; eapply match_frac_progress; eauto).
  destruct (Decoder.match_frac rest0) as [[fs r1]|].
  - specialize (Hfrac fs r1 eq_refl).
    assert (Hexp : forall x r2, Decoder.match_exp r1 = Some (x, r2) ->
                     length r2 < length r1)
      by (intros; eapply match_exp_progress; eauto).
    destruct (Decoder.match_exp r1) as [[x r2]|].
    + specialize (Hexp x r2 eq_refl). intros [= _ <-]. simpl in *. lia.
    + intros [= _ <-]. simpl in *. lia.
  - assert (Hexp : forall x r2, Decoder.match_exp rest0 = Some (x, r2) ->
                     length r2 < length rest0)
      by (intros; eapply match_exp_progress; eauto).
    destruct (Decoder.match_exp rest0) as [[x r2]|].
    + specialize (Hexp x r2 eq_refl). intros [= _ <-]. simpl in *. lia.
    + intros [= _ <-]. simpl in *. lia.
Qed.

(** One step through the body of a scanner: the case analysis it makes
    next, with what is known about the call it makes. *)
Ltac scan_step IHonce :=
  match goal with
  | |- scan_fine _ (match Decoder.skip_ws ?x with _ => _ end) =>
      let H := fresh "Hws" in
      pose proof (skip_ws_length x) as H;
      destruct (Decoder.skip_ws x) eqn:?; simpl in H
  | |- scan_fine _ (match Decoder.scanstring ?b ?r ?acc with _ => _ end) =>
      let H := fresh "Hstr" in
      pose proof (scanstring_progress (length r) r (le_n _) b acc) as H;
      destruct (Decoder.scanstring b r acc) as [[? ?]|?]; simpl in H
  | |- scan_fine _ (match Decoder.scan_once ?f (Decoder.skip_ws ?x)
                    with _ => _ end) =>
      let H := fresh "Honce" in
      let Hx := fresh "Hws" in
      pose proof (skip_ws_length x) as Hx;
      assert (H : scan_fine (length (Decoder.skip_ws x))
                    (Decoder.scan_once f (Decoder.skip_ws x)))
        by (apply IHonce; simpl in *; lia);
      destruct (Decoder.scan_once f (Decoder.skip_ws x)) as [[? ?]|?];
      simpl in H
  | |- scan_fine _ (match Decoder.scan_once ?f ?s with _ => _ end) =>
      let H := fresh "Honce" in
      assert (H : scan_fine (length s) (Decoder.scan_once f s))
        by (apply IHonce; simpl in *; lia);
      destruct (Decoder.scan_once f s) as [[? ?]|?]; simpl in H
  | |- scan_fine _ (match Decoder.match_number ?s with _ => _ end) =>
      let H := fresh "Hnum" in
      pose proof (match_number_progress s) as H;
      destruct (Decoder.match_number s) as [[? ?]|];
      [specialize (H _ _ eq_refl)|clear H]
  | |- scan_fine _ (match ?x with _ => _ end) => destruct x eqn:?
  end; cbv beta match.

Ltac scan_leaf :=
  first [ solve [simpl; discriminate]
        | solve [simpl; assumption]
        | solve [unfold scan_fine; rewrite length_skipn; cbn [length]; lia]
        | solve [simpl in *; lia] ].

Lemma decoder_progress : forall fuel,
  (forall s, 2 * length s < fuel ->
             scan_fine (length s) (Decoder.scan_once fuel s))
  /\ (forall s d, 2 * length s + 1 < fuel ->
                  scan_fine (length s) (Decoder.parse_object fuel s d))
  /\ (forall s xs, 2 * length s + 1 < fuel ->
                   scan_fine (length s) (Decoder.parse_array fuel s xs)).
Proof.
  induction fuel as [|fuel (IHonce & IHobj & IHarr)];
    [repeat split; intros; lia|].
  repeat split.
  - intros s Hfuel.
    cbn delta [Decoder.scan_once] fix beta match. unfold bind.
    repeat scan_step IHonce; subst; try scan_leaf;
      (eapply scan_fine_mono; [|first [apply IHobj | apply IHarr]];
       simpl in *; lia).
  - intros s d Hfuel.
    cbn delta [Decoder.parse_object] fix beta match. unfold bind.
    repeat scan_step IHonce; subst; try scan_leaf;
      match goal with
      | |- scan_fine _ (Decoder.parse_object _ (Decoder.skip_ws ?x) _) =>
          pose proof (skip_ws_length x);
          eapply scan_fine_mono; [|apply IHobj]; simpl in *; lia
      end.
  - intros s xs Hfuel.
    cbn delta [Decoder.parse_array] fix beta match. unfold bind.
    repeat scan_step IHonce; subst; try scan_leaf;
      match goal with
      | |- scan_fine _ (Decoder.parse_array _ (Decoder.skip_ws ?x) _) =>
          pose proof (skip_ws_length x);
          eapply scan_fine_mono; [|apply IHarr]; simpl in *; lia
      end.
Qed.

(** The decoder never runs out of fuel: every result of [json_loads] is a
    result of the scan, not an artefact of the bound on its calls. *)
Theorem json_loads_fuel_enough (s : str) : json_loads s <> Raise RecursionError.
Proof.
  unfold json_loads. destruct (startswith _ s); [discriminate|].
  pose proof (proj1 (decoder_progress (S (2 * length (Decoder.skip_ws s))))
                (Decoder.skip_ws s) (Nat.lt_succ_diag_r _)) as H.
  destruct (Decoder.scan_once _ (Decoder.skip_ws s)) as [[v rest]|e].
  - destruct (Decoder.skip_ws rest); discriminate.
  - destruct e; try discriminate. simpl in H. contradiction.
Qed.


(* ===================================================================== *)
(** * Braces of an encoded value *)
(* ===================================================================== *)

Lemma nonneg_from_nil (k : Z) : (0 <= k)%Z -> nonneg_from k [].
Proof. intros Hk n. rewrite firstn_nil. simpl. lia. Qed.

Lemma nonneg_from_cons (k : Z) (c : char) (r : str) :
  (0 <= k)%Z -> nonneg_from (k + brace_step c) r -> nonneg_from k (c :: r).
Proof.
  intros Hk Hr [|n]; simpl; [lia|]. specialize (Hr n). lia.
Qed.

Lemma nonneg_from_start (k : Z) (s : str) : nonneg_from k s -> (0 <= k)%Z.
Proof. intros H. specialize (H 0). simpl in H. lia. Qed.

Lemma nonneg_from_end (k : Z) (s : str) :
  nonneg_from k s -> (0 <= k + brace_depth s)%Z.
Proof. intros H. specialize (H (length s)). now rewrite firstn_all in H. Qed.

Lemma nonneg_from_app (k : Z) (a b : str) :
  nonneg_from k a -> nonneg_from (k + brace_depth a) b ->
  nonneg_from k (a ++ b).
Proof.
  intros Ha Hb n. rewrite firstn_app, brace_depth_app.
  destruct (Nat.le_gt_cases (length a) n) as [Hn|Hn].
  - rewrite firstn_all2 by exact Hn. specialize (Hb (n - length a)). lia.
  - replace (n - length a) with 0 by lia. simpl. specialize (Ha n). lia.
Qed.

Lemma nonneg_from_mono (k k' : Z) (s : str) :
  (k <= k')%Z -> nonneg_from k s -> nonneg_from k' s.
Proof. intros Hk H n. specialize (H n). lia. Qed.

Lemma nested_from_spec (s : str) : forall k,
  nested_from k s = true -> nonneg_from k s.
Proof.
  induction s as [|c r IH]; intros k H; simpl in H;
    apply andb_prop in H; destruct H as [Hk H]; apply Z.leb_le in Hk.
  - now apply nonneg_from_nil.
  - apply nonneg_from_cons; auto.
Qed.

Lemma properly_nested_test (s : str) :
  (brace_depth s =? 0)%Z && nested_from 0 s = true -> properly_nested s.
Proof.
  intros H. apply andb_prop in H. destruct H as [Hd Hn].
  split; [now apply Z.eqb_eq | ].
  intros n. apply (nested_from_spec _ _ Hn n).
Qed.

Lemma properly_nested_alt (s : str) :
  properly_nested s <-> brace_depth s = 0%Z /\ nonneg_from 0 s.
Proof. unfold properly_nested, nonneg_from. simpl. tauto. Qed.

Lemma plain_depth (s : str) : plain s -> brace_depth s = 0%Z.
Proof. induction 1 as [|c r Hc _ IH]; simpl; lia. Qed.

Lemma plain_nonneg (s : str) : plain s -> forall k, (0 <= k)%Z ->
  nonneg_from k s.
Proof.
  induction 1 as [|c r Hc _ IH]; intros k Hk.
  - now apply nonneg_from_nil.
  - apply nonneg_from_cons; auto. apply IH. lia.
Qed.

Lemma plain_properly_nested (s : str) : plain s -> properly_nested s.
Proof.
  intros H. apply properly_nested_alt. split.
  - now apply plain_depth.
  - apply plain_nonneg; auto; lia.
Qed.

Lemma properly_nested_app (a b : str) :
  properly_nested a -> properly_nested b -> properly_nested (a ++ b).
Proof.
  rewrite !properly_nested_alt. intros (Ha0 & Ha) (Hb0 & Hb). split.
  - rewrite brace_depth_app. lia.
  - apply nonneg_from_app; auto. now rewrite Ha0.
Qed.

Lemma properly_nested_join (sep : str) (parts : list str) :
  properly_nested sep -> Forall properly_nested parts ->
  properly_nested (join sep parts).
Proof.
  intros Hsep. induction 1 as [|p rest Hp Hrest IH]; simpl.
  - apply plain_properly_nested. constructor.
  - destruct rest as [|q rest']; auto.
    apply properly_nested_app; auto. apply properly_nested_app; auto.
Qed.

(** An opening brace, properly nested text, a closing brace: a block. *)
Lemma braced_is_block (inner : str) :
  properly_nested inner -> balanced_block (LBRACE :: inner ++ [RBRACE]).
Proof.
  rewrite properly_nested_alt. intros (H0 & Hn). split; [|split].
  - eauto.
  - simpl. rewrite brace_depth_app, H0. reflexivity.
  - intros [|n] Hlen; [lia|].
    simpl in Hlen. rewrite length_app in Hlen. simpl in Hlen.
    change (firstn (S n) (LBRACE :: inner ++ [RBRACE]))
      with (LBRACE :: firstn n (inner ++ [RBRACE])).
    rewrite firstn_app. replace (n - length inner) with 0 by lia.
    rewrite app_nil_r.
    change (brace_depth (LBRACE :: firstn n inner))
      with (1 + brace_depth (firstn n inner))%Z.
    specialize (Hn n). lia.
Qed.

Lemma braced_is_nested (inner : str) :
  properly_nested inner -> properly_nested (LBRACE :: inner ++ [RBRACE]).
Proof.
  rewrite !properly_nested_alt. intros (H0 & Hn). split.
  - simpl. rewrite brace_depth_app, H0. reflexivity.
  - apply nonneg_from_cons; [lia|].
    apply nonneg_from_app.
    + eapply nonneg_from_mono; [|exact Hn]. vm_compute. discriminate.
    + rewrite H0. apply nonneg_from_cons; [vm_compute; discriminate|].
      apply nonneg_from_nil. vm_compute. discriminate.
Qed.

(** ** What the encoder writes *)

Lemma plain_app (a b : str) : plain a -> plain b -> plain (a ++ b).
Proof. intros Ha Hb. apply Forall_app; auto. Qed.

Lemma plain_incl (a b : str) : incl a b -> plain b -> plain a.
Proof. intros Hi Hb. eapply incl_Forall; eauto. Qed.

Lemma plain_rev (a : str) : plain a -> plain (rev a).
Proof. apply plain_incl. intros x Hx. now apply in_rev. Qed.

Lemma plain_firstn (n : nat) (a : str) : plain a -> plain (firstn n a).
Proof.
  apply plain_incl. intros x Hx.
  rewrite <- (firstn_skipn n a). apply in_or_app. now left.
Qed.

Lemma plain_skipn (n : nat) (a : str) : plain a -> plain (skipn n a).
Proof.
  apply plain_incl. intros x Hx.
  rewrite <- (firstn_skipn n a). apply in_or_app. now right.
Qed.

Lemma plain_strip_zeros_rev (a : str) :
  plain a -> plain (FloatRepr.strip_zeros_rev a).
Proof.
  induction 1 as [|c r Hc Hr IH]; simpl; [constructor|].
  destruct (N.eqb c 48); auto. constructor; auto.
Qed.

Lemma plain_zeros (n : Z) : plain (FloatRepr.zeros n).
Proof.
  unfold FloatRepr.zeros. induction (Z.to_nat n); simpl; constructor; auto.
Qed.

Lemma lit_cons (a : ascii) (s : string) :
  lit (String a s) = N_of_ascii a :: lit s.
Proof. reflexivity. Qed.

Lemma plain_uint (d : Decimal.uint) :
  plain (lit (NilEmpty.string_of_uint d)).
Proof.
  induction d; simpl NilEmpty.string_of_uint; rewrite ?lit_cons;
    constructor; auto.
Qed.

Lemma plain_str_of_Z (z : Z) : plain (str_of_Z z).
Proof.
  unfold str_of_Z, NilZero.string_of_int.
  destruct (Z.to_int z) as [d|d]; unfold NilZero.string_of_uint.
  - destruct d; try apply plain_uint. repeat constructor.
  - rewrite lit_cons. constructor; [reflexivity|].
    destruct d; try apply plain_uint. repeat constructor.
Qed.

Ltac plain_lit := vm_compute; repeat constructor.

Lemma plain_exp_text (x : Z) : plain (FloatRepr.exp_text x).
Proof.
  unfold FloatRepr.exp_text. apply plain_app.
  - destruct (x <? 0)%Z; plain_lit.
  - destruct (Z.abs x <? 10)%Z; [constructor; [reflexivity|]|];
      apply plain_str_of_Z.
Qed.

Lemma plain_float_repr (f : pyfloat) : plain (float_repr f).
Proof.
  destruct f as [neg m e|neg|]; simpl.
  - unfold FloatRepr.repr_finite. apply plain_app.
    + destruct neg; [plain_lit | constructor].
    + destruct (m =? 0)%Z; [plain_lit|].
      destruct (FloatRepr.shortest m e) as [c p].
      set (ds := rev (FloatRepr.strip_zeros_rev (rev (str_of_Z c)))).
      assert (Hds : plain ds).
      { apply plain_rev, plain_strip_zeros_rev, plain_rev, plain_str_of_Z. }
      destruct (_ || _).
      * apply plain_app; [now apply plain_firstn|].
        apply plain_app.
        -- destruct (skipn 1 ds) eqn:E; [constructor|].
           apply plain_app; [plain_lit|]. rewrite <- E. now apply plain_skipn.
        -- apply plain_app; [plain_lit | apply plain_exp_text].
      * destruct (_ <=? 0)%Z.
        -- apply plain_app; [plain_lit|].
           apply plain_app; [apply plain_zeros | exact Hds].
        -- destruct (_ <=? _)%Z.
           ++ apply plain_app; [exact Hds|].
              apply plain_app; [apply plain_zeros | plain_lit].
           ++ apply plain_app; [now apply plain_firstn|].
              apply plain_app; [plain_lit | now apply plain_skipn].
  - destruct neg; plain_lit.
  - plain_lit.
Qed.

Lemma plain_encode_float (f : pyfloat) : plain (Encoder.encode_float f).
Proof.
  destruct f as [neg m e|neg|]; simpl.
  - apply (plain_float_repr (Finite neg m e)).
  - destruct neg; plain_lit.
  - plain_lit.
Qed.

Lemma hex_char_plain (d : N) : (d < 16)%N -> brace_step (hex_char d) = 0%Z.
Proof.
  intros Hd. unfold hex_char, brace_step, LBRACE, RBRACE.
  destruct (d <? 10)%N;
    repeat match goal with
           | |- context [N.eqb ?a ?b] => destruct (N.eqb_spec a b); try lia
           end; reflexivity.
Qed.

Lemma plain_hex (w : nat) : forall n, plain (hex w n).
Proof.
  induction w as [|w IH]; intros n; simpl; [constructor|].
  apply plain_app; auto. constructor; [|constructor].
  apply hex_char_plain. apply N.mod_lt. discriminate.
Qed.

(** An escape is the character itself or has no brace; a brace is never
    escaped. *)
Lemma escape_cases (c : char) :
  Encoder.escape c = [c] \/ (plain (Encoder.escape c) /\ brace_step c = 0%Z).
Proof.
  unfold Encoder.escape.
  repeat match goal with
         | |- context [if N.eqb ?a ?b then _ else _] =>
             destruct (N.eqb_spec a b);
             [right; split; [plain_lit | subst; reflexivity]|]
         end.
  destruct ((32 <=? c) && (c <=? 126))%N eqn:Hrange; [now left|].
  right. split.
  - destruct (c <? 65536)%N.
    + apply plain_app; [plain_lit | apply plain_hex].
    + apply plain_app; [plain_lit|].
      apply plain_app; [apply plain_hex|].
      apply plain_app; [plain_lit | apply plain_hex].
  - unfold brace_step, LBRACE, RBRACE.
    apply andb_false_iff in Hrange.
    repeat match goal with
           | |- context [N.eqb ?a ?b] => destruct (N.eqb_spec a b)
           end; try reflexivity; subst; destruct Hrange; discriminate.
Qed.

Lemma escaped_depth (s : str) :
  brace_depth (concat (map Encoder.escape s)) = brace_depth s.
Proof.
  induction s as [|c r IH]; simpl; auto.
  rewrite brace_depth_app, IH.
  destruct (escape_cases c) as [->|(Hp & Hc)].
  - simpl. lia.
  - rewrite (plain_depth _ Hp), Hc. reflexivity.
Qed.

Lemma escaped_nonneg (s : str) : forall k,
  nonneg_from k s -> nonneg_from k (concat (map Encoder.escape s)).
Proof.
  induction s as [|c r IH]; intros k H; simpl.
  - apply nonneg_from_nil. now apply nonneg_from_start in H.
  - assert (Hk := nonneg_from_start _ _ H).
    assert (Hr : nonneg_from (k + brace_step c) r).
    { intros n. specialize (H (S n)). simpl in H. lia. }
    apply nonneg_from_app.
    + destruct (escape_cases c) as [->|(Hp & Hc)].
      * apply nonneg_from_cons; auto. apply nonneg_from_nil.
        now apply nonneg_from_start in Hr.
      * now apply plain_nonneg.
    + replace (brace_depth (Encoder.escape c)) with (brace_step c).
      * now apply IH.
      * destruct (escape_cases c) as [->|(Hp & Hc)];
          [simpl; lia | now rewrite (plain_depth _ Hp)].
Qed.

Lemma encode_str_nested (s : str) :
  properly_nested s -> properly_nested (Encoder.encode_str s).
Proof.
  intros Hs. unfold Encoder.encode_str.
  apply properly_nested_app; [apply plain_properly_nested; plain_lit|].
  apply properly_nested_app; [|apply plain_properly_nested; plain_lit].
  apply properly_nested_alt in Hs. destruct Hs as (H0 & Hn).
  apply properly_nested_alt. split.
  - now rewrite escaped_depth.
  - now apply escaped_nonneg.
Qed.

(** The encoding of a value whose strings are properly nested is properly
    nested. *)
Lemma encode_nested (v : json) :
  Forall properly_nested (all_strings v) ->
  properly_nested (Encoder.encode v).
Proof.
  induction v using json_nested_ind; intros Hs; cbn [Encoder.encode].
  - apply plain_properly_nested; plain_lit.
  - apply plain_properly_nested; destruct b; plain_lit.
  - apply plain_properly_nested, plain_str_of_Z.
  - apply plain_properly_nested, plain_encode_float.
  - apply encode_str_nested. now inversion Hs.
  - apply properly_nested_app; [apply plain_properly_nested; plain_lit|].
    apply properly_nested_app; [|apply plain_properly_nested; plain_lit].
    apply properly_nested_join; [apply plain_properly_nested; plain_lit|].
    cbn [all_strings] in Hs. apply Forall_flat_map in Hs.
    apply Forall_map. rewrite Forall_forall in *.
    intros x Hx. apply H; auto.
  - apply (braced_is_nested
             (join (lit ", ")
                (map (fun kv => Encoder.encode_str (fst kv) ++ lit ": "
                                  ++ Encoder.encode (snd kv)) kvs))).
    apply properly_nested_join; [apply plain_properly_nested; plain_lit|].
    cbn [all_strings] in Hs. apply Forall_flat_map in Hs.
    apply Forall_map. rewrite Forall_forall in *.
    intros kv Hkv. specialize (Hs kv Hkv). inversion Hs; subst.
    apply properly_nested_app; [now apply encode_str_nested|].
    apply properly_nested_app; [apply plain_properly_nested; plain_lit|].
    apply H; auto.
Qed.

(* ===================================================================== *)
(** * Extraction of an encoded object *)
(* ===================================================================== *)

(** Trimming and fence stripping leave a text alone that starts with an
    opening brace and ends with a closing one. *)
Lemma strip_braced (inner : str) :
  strip (LBRACE :: inner ++ [RBRACE]) = LBRACE :: inner ++ [RBRACE].
Proof.
  unfold strip, rstrip.
  change (lstrip (LBRACE :: inner ++ [RBRACE])) with (LBRACE :: inner ++ [RBRACE]).
  change (LBRACE :: inner ++ [RBRACE]) with ((LBRACE :: inner) ++ [RBRACE]).
  rewrite rev_app_distr.
  change (lstrip (rev [RBRACE] ++ rev (LBRACE :: inner)))
    with (rev [RBRACE] ++ rev (LBRACE :: inner)).
  rewrite <- rev_app_distr. apply rev_involutive.
Qed.

Lemma sub_open_fence_braced (r : str) :
  sub_open_fence (LBRACE :: r) = LBRACE :: r.
Proof. reflexivity. Qed.

Lemma sub_close_fence_braced (inner : str) :
  sub_close_fence (LBRACE :: inner ++ [RBRACE]) = LBRACE :: inner ++ [RBRACE].
Proof.
  unfold sub_close_fence, endswith.
  change (LBRACE :: inner ++ [RBRACE]) with ((LBRACE :: inner) ++ [RBRACE]).
  rewrite rev_app_distr. reflexivity.
Qed.

Lemma strip_fences_braced (inner : str) :
  strip_fences (LBRACE :: inner ++ [RBRACE]) = LBRACE :: inner ++ [RBRACE].
Proof.
  unfold strip_fences.
  rewrite strip_braced, sub_open_fence_braced, strip_braced,
    sub_close_fence_braced, strip_braced. reflexivity.
Qed.

Lemma encode_object_braced (d : dict) :
  exists inner,
    json_dumps (JObj d) = LBRACE :: inner ++ [RBRACE]
    /\ (Forall properly_nested (all_strings (JObj d)) -> properly_nested inner).
Proof.
  exists (join (lit ", ")
            (map (fun kv => Encoder.encode_str (fst kv) ++ lit ": "
                              ++ Encoder.encode (snd kv)) d)).
  split; [reflexivity|]. intros Hs.
  apply properly_nested_join; [apply plain_properly_nested; plain_lit|].
  cbn [all_strings] in Hs. apply Forall_flat_map in Hs.
  apply Forall_map. rewrite Forall_forall in *.
  intros kv Hkv. specialize (Hs kv Hkv). inversion Hs; subst.
  apply properly_nested_app; [now apply encode_str_nested|].
  apply properly_nested_app; [apply plain_properly_nested; plain_lit|].
  now apply encode_nested.
Qed.

(** On the encoding of an object whose strings, keys and values alike,
    have properly nested braces, [extract_json] is [json.loads]. *)
Lemma extract_json_of_encoding (d : dict) :
  Forall properly_nested (all_strings (JObj d)) ->
  extract_json (json_dumps (JObj d)) = json_loads (json_dumps (JObj d)).
Proof.
  intros Hs. destruct (encode_object_braced d) as (inner & -> & Hinner).
  apply extract_json_candidate. exists [], []. repeat split.
  - rewrite strip_fences_braced, app_nil_r. reflexivity.
  - intros [].
  - eauto.
  - apply braced_is_block; auto.
  - apply braced_is_block; auto.
Qed.

(** C4, amended.  For every JSON object [X] whose strings, keys as well
    as string values, have properly nested braces, and which the JSON
    library itself reads back from its encoding, extracting the encoding
    of [X] returns [X]. *)
Theorem extract_json_round_trip (d : dict) :
  Forall properly_nested (all_strings (JObj d)) ->
  json_loads (json_dumps (JObj d)) = Ok (JObj d) ->
  extract_json (json_dumps (JObj d)) = Ok (JObj d).
Proof.
  intros Hs Hlib. now rewrite extract_json_of_encoding.
Qed.

(** C4, amended, at an object with braces nested in a key and in a value. *)
Lemma extract_json_round_trip_witness :
  extract_json (json_dumps (JObj nested_example)) = Ok (JObj nested_example).
Proof.
  apply extract_json_round_trip.
  - repeat constructor; apply properly_nested_test; reflexivity.
  - vm_compute. reflexivity.
Defined.

(** C4 as stated fails.  A key with a brace: no string value has a brace,
    the library reads the encoding back, and extraction cuts the block
    inside the key.  A string value whose braces are as many opening as
    closing, but in the wrong order: the same.  A string value with two
    surrogate code points and no brace: extraction returns what the
    library reads back, which is not [X]. *)
Lemma extract_json_round_trip_counterexample :
  (json_loads (json_dumps (JObj [(lit "}", JInt 1)]))
   = Ok (JObj [(lit "}", JInt 1)])
   /\ extract_json (json_dumps (JObj [(lit "}", JInt 1)]))
      = Raise (JSONDecodeError (lit "Unterminated string starting at")
                 (jlit "{'}") 1))
  /\ (json_loads (json_dumps (JObj [(lit "a", JStr (lit "}{"))]))
      = Ok (JObj [(lit "a", JStr (lit "}{"))])
      /\ extract_json (json_dumps (JObj [(lit "a", JStr (lit "}{"))]))
         = Raise (JSONDecodeError (lit "Unterminated string starting at")
                    (jlit "{'a': '}") 6))
  /\ extract_json (json_dumps (JObj [(lit "a", JStr [55357; 56832]%N)]))
     = Ok (JObj [(lit "a", JStr [128512%N])]).
Proof. vm_compute. repeat split; reflexivity. Qed.

(* ===================================================================== *)
(** * POST /optimize *)
(* ===================================================================== *)

Ltac keys_differ :=
  let H := fresh in intro H; vm_compute in H; discriminate H.

Section Handler.

Variable isprintable : char -> bool.
Variable call_ollama : json -> str -> result str.

(** The three exits of the handler for a body that is a JSON object. *)
Lemma optimize_bad_code (d : dict) :
  (forall code, dict_get_default d (lit "code") JNull <> JStr code) ->
  optimize isprintable call_ollama (JObj d)
  = Ok (JObj [(lit "error", JStr (lit "`code` must be a string"))], 400%Z).
Proof.
  intros Hcode. unfold optimize; simpl.
  destruct (dict_get_default d (lit "code") JNull) eqn:E; try reflexivity.
  exfalso. now apply (Hcode s).
Qed.

Lemma optimize_llm_error (d : dict) (code : str) (e : exn) :
  dict_get_default d (lit "code") JNull = JStr code ->
  (raw <- call_ollama (dict_get_default d (lit "language") JNull) code ;;
   extract_json raw) = Raise e ->
  optimize isprintable call_ollama (JObj d)
  = Ok (JObj [(lit "error", JStr (lit "LLM error: " ++ exn_str e))], 500%Z).
Proof.
  intros Hcode He. unfold optimize; simpl. rewrite Hcode, He. reflexivity.
Qed.

Lemma optimize_extracted (d : dict) (code raw : str) (parsed : json) :
  dict_get_default d (lit "code") JNull = JStr code ->
  call_ollama (dict_get_default d (lit "language") JNull) code = Ok raw ->
  extract_json raw = Ok parsed ->
  optimize isprintable call_ollama (JObj d)
  = finish isprintable parsed (dict_get_default d (lit "language") JNull) code.
Proof.
  intros Hcode Hraw Hparsed. unfold optimize; simpl.
  rewrite Hcode, Hraw; simpl. rewrite Hparsed. reflexivity.
Qed.

(** What [finish] returns when it returns. *)
Lemma finish_ok (parsed : dict) (language : json) (code : str)
    (body : json) (status : Z) :
  finish isprintable (JObj parsed) language code = Ok (body, status) ->
  exists suggestions metrics,
    let p1 := dict_setdefault parsed (lit "optimized_code") (JStr code) in
    let p2 := dict_setdefault p1 (lit "suggestions") (JList []) in
    let p3 := dict_setdefault p2 (lit "metrics") (JObj []) in
    normalize_suggestions isprintable
      (dict_get_default p3 (lit "suggestions") (JList [])) = Ok suggestions
    /\ normalize_metrics (dict_get_default
                            (dict_set p3 (lit "suggestions") (JList suggestions))
                            (lit "metrics") (JObj []))
         language code = Ok metrics
    /\ body = JObj (dict_set
                      (dict_set p3 (lit "suggestions") (JList suggestions))
                      (lit "metrics") metrics)
    /\ status = 200%Z.
Proof.
  unfold finish; simpl. unfold bind at 1.
  destruct (normalize_suggestions isprintable _) as [suggestions|e] eqn:Hs;
    [|discriminate].
  unfold bind at 1.
  destruct (normalize_metrics _ language code) as [metrics|e] eqn:Hm;
    [|discriminate].
  intros H; inversion H; subst. exists suggestions, metrics. auto.
Qed.

(** C9.  For a request that succeeds (status 200) and whose extracted
    object has no ["optimized_code"] key, the [optimized_code] of the
    response is the [code] of the request, unchanged. *)
Theorem optimize_defaults_optimized_code
    (d parsed : dict) (code raw : str) (body : json) :
  dict_get_default d (lit "code") JNull = JStr code ->
  call_ollama (dict_get_default d (lit "language") JNull) code = Ok raw ->
  extract_json raw = Ok (JObj parsed) ->
  dict_get parsed (lit "optimized_code") = None ->
  optimize isprintable call_ollama (JObj d) = Ok (body, 200%Z) ->
  exists b, body = JObj b
            /\ dict_get b (lit "optimized_code") = Some (JStr code).
Proof.
  intros Hcode Hraw Hparsed Hmissing Hok.
  rewrite (optimize_extracted _ _ _ _ Hcode Hraw Hparsed) in Hok.
  destruct (finish_ok _ _ _ _ _ Hok) as (suggestions & metrics & _ & _ & -> & _).
  eexists; split; [reflexivity|].
  rewrite !dict_get_set_other by keys_differ.
  rewrite !dict_get_setdefault_other by keys_differ.
  rewrite dict_get_setdefault_same, Hmissing. reflexivity.
Qed.

End Handler.

(** C9, at a request for C code and an answer without [optimized_code]. *)
Lemma optimize_defaults_optimized_code_witness :
  exists b,
    JObj [(lit "suggestions",
            JList [JObj [(lit "id", JStr (lit "S1"));
                         (lit "title", JStr (lit "use void"));
                         (lit "detail", JStr (lit "use void"))]]);
          (lit "metrics",
            JObj [(lit "language", JStr (lit "c"));
                  (lit "loc_before", JInt 1);
                  (lit "loc_after", JInt 1);
                  (lit "reduction", JInt 0);
                  (lit "redundant_removed", JNull);
                  (lit "security_improved", JBool false)]);
          (lit "optimized_code", JStr (lit "int main(){}"))]
    = JObj b
    /\ dict_get b (lit "optimized_code") = Some (JStr (lit "int main(){}")).
Proof.
  apply (optimize_defaults_optimized_code (fun _ => false) answer_without_code
           request_c
           [(lit "suggestions", JList [JStr (lit "use void")]);
            (lit "metrics", JObj [])]
           (lit "int main(){}")
           (jlit "Here you go: {'suggestions': ['use void'], 'metrics': {}}"));
    vm_compute; reflexivity.
Defined.

(** The specification's end-to-end scenario. *)
Example optimize_end_to_end (isprintable : char -> bool) :
  optimize isprintable answer_fenced (JObj request_c)
  = Ok (JObj [(lit "optimized_code", JStr (lit "int main(void){}"));
              (lit "suggestions",
                JList [JObj [(lit "id", JStr (lit "S1"));
                             (lit "title", JStr (lit "use void"));
                             (lit "detail", JStr (lit "use void"))]]);
              (lit "metrics",
                JObj [(lit "language", JStr (lit "c"));
                      (lit "loc_before", JInt 1);
                      (lit "loc_after", JInt 1);
                      (lit "reduction", JInt 0);
                      (lit "redundant_removed", JNull);
                      (lit "security_improved", JBool false)])],
        200%Z).
Proof. vm_compute. reflexivity. Qed.

(** The two error responses. *)
Example optimize_missing_code (isprintable : char -> bool)
    (call_ollama : json -> str -> result str) :
  optimize isprintable call_ollama (JObj [(lit "language", JStr (lit "c"))])
  = Ok (JObj [(lit "error", JStr (lit "`code` must be a string"))], 400%Z).
Proof. reflexivity. Qed.

Example optimize_no_json (isprintable : char -> bool) :
  optimize isprintable (fun _ _ => Ok (lit "no json here")) (JObj request_c)
  = Ok (JObj [(lit "error",
                JStr (lit "LLM error: No JSON detected in LLM response"))],
        500%Z).
Proof. vm_compute. reflexivity. Qed.

Example optimize_parse_error (isprintable : char -> bool) :
  optimize isprintable (fun _ _ => Ok (jlit "{'a': 'x}y'}")) (JObj request_c)
  = Ok (JObj [(lit "error",
                JStr (lit "LLM error: Unterminated string starting at: line 1 column 7 (char 6)"))],
        500%Z).
Proof. vm_compute. reflexivity. Qed.

Example optimize_call_fails (isprintable : char -> bool) :
  optimize isprintable (fun _ _ => Raise (CallError (lit "timed out")))
    (JObj request_c)
  = Ok (JObj [(lit "error", JStr (lit "LLM error: timed out"))], 500%Z).
Proof. vm_compute. reflexivity. Qed.

(** ** Where normalisation raises *)

(** C1 as stated fails, at two answers of the model.  Extraction returns
    an object for each, and the steps after it raise: [enumerate] a
    [TypeError] on the null [suggestions], [.get] an [AttributeError] on
    the list [metrics]. *)
Lemma finish_raises_on_mistyped_fields :
  (exists parsed,
     extract_json null_suggestions = Ok parsed
     /\ forall isprintable language code,
          finish isprintable parsed language code
          = Raise (TypeError (lit "'NoneType' object is not iterable")))
  /\ (exists parsed,
        extract_json list_metrics = Ok parsed
        /\ forall isprintable language code,
             finish isprintable parsed language code
             = Raise (AttributeError
                        (lit "'list' object has no attribute 'get'"))).
Proof.
  split; eexists; (split; [vm_compute; reflexivity | reflexivity]).
Qed.

(** C8 as stated fails, at a request whose model answer has a null
    [suggestions]: the call and the extraction succeed, and the handler
    ends in a [TypeError] it does not catch, so there is no status 200 and
    no ["LLM error"] body.  A body that is not an object ends the same
    way, in an [AttributeError] at [data.get], and not in status 400. *)
Lemma optimize_uncaught_error :
  (forall isprintable,
     optimize isprintable (fun _ _ => Ok null_suggestions) (JObj request_c)
     = Raise (TypeError (lit "'NoneType' object is not iterable")))
  /\ (forall isprintable call_ollama,
        optimize isprintable call_ollama (JList [])
        = Raise (AttributeError
                   (lit "'list' object has no attribute 'get'"))).
Proof. split; intros; [vm_compute; reflexivity | reflexivity]. Qed.

(** [normalize_suggestions] raises on the values that cannot be iterated
    over (null, booleans, numbers) and on no other; [normalize_metrics]
    raises on the values that are not objects and on no other. *)
Theorem normalizers_raise_iff (isprintable : char -> bool)
    (v language : json) (code : str) :
  ((exists e, normalize_suggestions isprintable v = Raise e) <-> ~ iterable v)
  /\ ((exists e, normalize_metrics v language code = Raise e)
      <-> ~ is_object v).
Proof.
  split; split.
  - intros (e & He) Hv. destruct v; simpl in Hv; try contradiction;
      discriminate.
  - intros Hv. destruct v; simpl in Hv; try (exfalso; now apply Hv);
      eexists; reflexivity.
  - intros (e & He) Hv. destruct v; simpl in Hv; try contradiction.
    discriminate.
  - intros Hv. destruct v; simpl in Hv; try (exfalso; now apply Hv);
      eexists; reflexivity.
Qed.

(** ** Where normalisation goes through *)

Section WellTyped.

Variable isprintable : char -> bool.

(** The steps after extraction on an object with fields of the expected
    types. *)
Lemma finish_goes_through (parsed : dict) (language : json) (code : str)
    (items : list json) (raw_metrics : dict) :
  py_iter (or_else (dict_get parsed (lit "suggestions")) (JList []))
  = Ok items ->
  or_else (dict_get parsed (lit "metrics")) (JObj []) = JObj raw_metrics ->
  exists b m,
    finish isprintable (JObj parsed) language code = Ok (JObj b, 200%Z)
    /\ dict_get b (lit "optimized_code")
       = Some (or_else (dict_get parsed (lit "optimized_code")) (JStr code))
    /\ dict_get b (lit "suggestions")
       = Some (JList (entries_from isprintable 0 items))
    /\ dict_get b (lit "metrics") = Some (JObj m)
    /\ normalize_metrics (JObj raw_metrics) language code = Ok (JObj m)
    /\ keys m = metrics_keys.
Proof.
  intros Hitems Hmetrics.
  set (p1 := dict_setdefault parsed (lit "optimized_code") (JStr code)).
  set (p2 := dict_setdefault p1 (lit "suggestions") (JList [])).
  set (p3 := dict_setdefault p2 (lit "metrics") (JObj [])).
  assert (Hs : dict_get p3 (lit "suggestions")
               = Some (or_else (dict_get parsed (lit "suggestions"))
                         (JList []))).
  { unfold p3. rewrite dict_get_setdefault_other by keys_differ.
    unfold p2. rewrite dict_get_setdefault_same.
    unfold p1. now rewrite dict_get_setdefault_other by keys_differ. }
  assert (Hm : dict_get p3 (lit "metrics")
               = Some (or_else (dict_get parsed (lit "metrics")) (JObj []))).
  { unfold p3. rewrite dict_get_setdefault_same.
    unfold p2. rewrite dict_get_setdefault_other by keys_differ.
    unfold p1. now rewrite dict_get_setdefault_other by keys_differ. }
  destruct (normalize_metrics_returns raw_metrics language code)
    as (m & Hnm & Hkeys).
  exists (dict_set (dict_set p3 (lit "suggestions")
                      (JList (entries_from isprintable 0 items)))
            (lit "metrics") (JObj m)), m.
  repeat split.
  - unfold finish; simpl. fold p1 p2 p3.
    unfold dict_get_default at 1. rewrite Hs.
    rewrite (normalize_suggestions_iterable isprintable _ _ Hitems); simpl.
    unfold dict_get_default at 1.
    rewrite dict_get_set_other by keys_differ.
    rewrite Hm, Hmetrics, Hnm. reflexivity.
  - rewrite !dict_get_set_other by keys_differ.
    unfold p3, p2. rewrite !dict_get_setdefault_other by keys_differ.
    unfold p1. apply dict_get_setdefault_same.
  - rewrite dict_get_set_other by keys_differ. apply dict_get_set_same.
  - apply dict_get_set_same.
  - exact Hnm.
  - exact Hkeys.
Qed.

(** C1, amended.  For every object returned by extraction whose
    [suggestions], if it has any, can be iterated over (a list, a string,
    an object) and whose [metrics], if it has any, is an object, the
    default filling and the two normalisations raise nothing and the
    response is complete: status 200, [optimized_code] (the object's own,
    or the request's code), one [{ id, title, detail }] suggestion per
    item, and metrics with the six canonical keys. *)
Theorem finish_well_typed (parsed : dict) (language : json) (code : str)
    (items : list json) (raw_metrics : dict) :
  py_iter (or_else (dict_get parsed (lit "suggestions")) (JList []))
  = Ok items ->
  or_else (dict_get parsed (lit "metrics")) (JObj []) = JObj raw_metrics ->
  exists b suggestions m,
    finish isprintable (JObj parsed) language code = Ok (JObj b, 200%Z)
    /\ dict_get b (lit "optimized_code")
       = Some (or_else (dict_get parsed (lit "optimized_code")) (JStr code))
    /\ dict_get b (lit "suggestions") = Some (JList suggestions)
    /\ length suggestions = length items
    /\ Forall is_suggestion suggestions
    /\ dict_get b (lit "metrics") = Some (JObj m)
    /\ keys m = metrics_keys.
Proof.
  intros Hitems Hmetrics.
  destruct (finish_goes_through parsed language code items raw_metrics
              Hitems Hmetrics) as (b & m & Hf & Hc & Hs & Hm & _ & Hk).
  exists b, (entries_from isprintable 0 items), m.
  repeat split; auto.
  - apply entries_from_length.
  - apply entries_are_suggestions.
Qed.

End WellTyped.

(** C1, amended, at an object whose [suggestions] is a string: one
    suggestion per character. *)
Lemma finish_well_typed_witness :
  exists b suggestions m,
    finish (fun _ => false)
      (JObj [(lit "suggestions", JStr (lit "ab"))]) (JStr (lit "c")) (lit "x")
    = Ok (JObj b, 200%Z)
    /\ dict_get b (lit "optimized_code")
       = Some (or_else (dict_get [(lit "suggestions", JStr (lit "ab"))]
                          (lit "optimized_code")) (JStr (lit "x")))
    /\ dict_get b (lit "suggestions") = Some (JList suggestions)
    /\ length suggestions = length [JStr (lit "a"); JStr (lit "b")]
    /\ Forall is_suggestion suggestions
    /\ dict_get b (lit "metrics") = Some (JObj m)
    /\ keys m = metrics_keys.
Proof.
  apply (finish_well_typed (fun _ => false)
           [(lit "suggestions", JStr (lit "ab"))] (JStr (lit "c")) (lit "x")
           [JStr (lit "a"); JStr (lit "b")] []); reflexivity.
Defined.

(** ** The statuses of the handler *)


(** C8, amended.  For every request whose body is a JSON object: when
    [code] is missing or not a string the response is status 400 with
    [{ "error": "`code` must be a string" }], whatever the model call
    would do; when the model call or the extraction raises [e] it is
    status 500 with [{ "error": "LLM error: " + str(e) }]; and otherwise,
    when the extracted object's [suggestions] can be iterated over and its
    [metrics] is an object, it is status 200 with the normalised body. *)
Theorem optimize_responses (isprintable : char -> bool)
    (call_ollama : json -> str -> result str) (d : dict) :
  let language := dict_get_default d (lit "language") JNull in
  ((forall code, dict_get_default d (lit "code") JNull <> JStr code) ->
   forall call,
     optimize isprintable call (JObj d)
     = Ok (JObj [(lit "error", JStr (lit "`code` must be a string"))], 400%Z))
  /\ (forall code e,
        dict_get_default d (lit "code") JNull = JStr code ->
        (raw <- call_ollama language code ;; extract_json raw) = Raise e ->
        optimize isprintable call_ollama (JObj d)
        = Ok (JObj [(lit "error", JStr (lit "LLM error: " ++ exn_str e))],
              500%Z))
  /\ (forall code raw parsed items raw_metrics,
        dict_get_default d (lit "code") JNull = JStr code ->
        call_ollama language code = Ok raw ->
        extract_json raw = Ok (JObj parsed) ->
        py_iter (or_else (dict_get parsed (lit "suggestions")) (JList []))
        = Ok items ->
        or_else (dict_get parsed (lit "metrics")) (JObj []) = JObj raw_metrics ->
        exists b m,
          optimize isprintable call_ollama (JObj d) = Ok (JObj b, 200%Z)
          /\ dict_get b (lit "optimized_code")
             = Some (or_else (dict_get parsed (lit "optimized_code"))
                       (JStr code))
          /\ dict_get b (lit "suggestions")
             = Some (JList (entries_from isprintable 0 items))
          /\ dict_get b (lit "metrics") = Some (JObj m)
          /\ normalize_metrics (JObj raw_metrics) language code
             = Ok (JObj m)).
Proof.
  intros language. repeat split.
  - intros Hcode call. exact (optimize_bad_code isprintable call d Hcode).
  - intros code e Hcode He.
    exact (optimize_llm_error isprintable call_ollama d code e Hcode He).
  - intros code raw parsed items raw_metrics Hcode Hraw Hparsed Hitems Hm.
    rewrite (optimize_extracted _ _ _ _ _ _ Hcode Hraw Hparsed).
    destruct (finish_goes_through isprintable parsed language code items
                raw_metrics Hitems Hm) as (b & m & Hf & Hc & Hs & Hmm & Hn & _).
    exists b, m. repeat split; assumption.
Qed.

(** C8, amended, at the specification's end-to-end scenario. *)
Lemma optimize_responses_witness :
  exists b m,
    optimize (fun _ => false) answer_fenced (JObj request_c)
    = Ok (JObj b, 200%Z)
    /\ dict_get b (lit "optimized_code")
       = Some (JStr (lit "int main(void){}"))
    /\ dict_get b (lit "suggestions")
       = Some (JList [suggestion (JStr (lit "S1")) (JStr (lit "use void"))
                        (JStr (lit "use void"))])
    /\ dict_get b (lit "metrics") = Some (JObj m)
    /\ normalize_metrics (JObj [(lit "Lines of Code Reduced", JInt 0)])
         (JStr (lit "c")) (lit "int main(){}")
       = Ok (JObj m).
Proof.
  apply (proj2 (proj2 (optimize_responses (fun _ => false) answer_fenced
                         request_c))
           (lit "int main(){}")
           (lit "```json" ++ [NEWLINE]
              ++ jlit "{'optimized_code':'int main(void){}','suggestions':['use void'],'metrics':{'Lines of Code Reduced':0}}"
              ++ [NEWLINE] ++ lit "```")
           [(lit "optimized_code", JStr (lit "int main(void){}"));
            (lit "suggestions", JList [JStr (lit "use void")]);
            (lit "metrics", JObj [(lit "Lines of Code Reduced", JInt 0)])]
           [JStr (lit "use void")]
           [(lit "Lines of Code Reduced", JInt 0)]);
    vm_compute; reflexivity.
Defined.

(* ===================================================================== *)
(** * extract_json: trimming and fences play no part *)
(* ===================================================================== *)

Lemma isspace_plain (c : char) : isspace c = true -> brace_step c = 0%Z.
Proof.
  intros H. unfold brace_step.
  destruct (N.eqb_spec c LBRACE) as [->|_]; [vm_compute in H; discriminate|].
  destruct (N.eqb_spec c RBRACE) as [->|_]; [vm_compute in H; discriminate|].
  reflexivity.
Qed.

Lemma plain_no_brace (s : str) (c : char) :
  plain s -> brace_step c <> 0%Z -> ~ In c s.
Proof.
  intros Hs Hc Hin. unfold plain in Hs. rewrite Forall_forall in Hs.
  apply Hc. now apply Hs.
Qed.

Lemma plain_no_lbrace (s : str) : plain s -> ~ In LBRACE s.
Proof. intros Hs. apply plain_no_brace; [exact Hs | discriminate]. Qed.

Lemma trimmed_refl (s : str) : trimmed s s.
Proof. exists [], []. rewrite app_nil_r. repeat split; constructor. Qed.

Lemma trimmed_trans (a b c : str) : trimmed a b -> trimmed b c -> trimmed a c.
Proof.
  intros (p1 & q1 & -> & Hp1 & Hq1) (p2 & q2 & -> & Hp2 & Hq2).
  exists (p1 ++ p2), (q2 ++ q1). split; [|split; now apply plain_app].
  now rewrite <- !app_assoc.
Qed.

Lemma lstrip_head (s : str) : forall c r,
  lstrip s = c :: r -> isspace c = false.
Proof.
  induction s as [|x s IH]; intros c r H; simpl in H; [discriminate|].
  destruct (isspace x) eqn:E; [now apply (IH c r)|].
  now inversion H; subst.
Qed.

Lemma trimmed_lstrip (s : str) : trimmed s (lstrip s).
Proof.
  induction s as [|x s (pre & post & Hs & Hpre & Hpost)]; [apply trimmed_refl|].
  simpl. destruct (isspace x) eqn:E; [|apply trimmed_refl].
  exists (x :: pre), post. split; [simpl; now f_equal|].
  split; [constructor; [now apply isspace_plain | exact Hpre] | exact Hpost].
Qed.

Lemma trimmed_rev (s t : str) : trimmed s t -> trimmed (rev s) (rev t).
Proof.
  intros (pre & post & -> & Hpre & Hpost). exists (rev post), (rev pre).
  split; [|split; now apply plain_rev].
  now rewrite !rev_app_distr, app_assoc.
Qed.

Lemma trimmed_rstrip (s : str) : trimmed s (rstrip s).
Proof.
  unfold rstrip. rewrite <- (rev_involutive s) at 1.
  apply trimmed_rev, trimmed_lstrip.
Qed.

Lemma trimmed_strip (s : str) : trimmed s (strip s).
Proof.
  unfold strip. eapply trimmed_trans; [apply trimmed_lstrip|].
  apply trimmed_rstrip.
Qed.

(** A stripped text does not end with white space. *)
Lemma strip_last (u a : str) (c : char) :
  strip u = a ++ [c] -> isspace c = false.
Proof.
  unfold strip, rstrip. intros H. apply (f_equal (@rev char)) in H.
  rewrite rev_involutive, rev_app_distr in H. simpl in H.
  exact (lstrip_head _ _ _ H).
Qed.

Lemma startswith_cut (p : str) : forall s,
  startswith p s = true -> s = p ++ skipn (length p) s.
Proof.
  induction p as [|x p IH]; intros [|y s] H; simpl in *;
    try reflexivity; try discriminate.
  apply andb_prop in H as [Hxy Hp]. apply N.eqb_eq in Hxy. subst y.
  f_equal. now apply IH.
Qed.

Lemma endswith_cut (p s : str) :
  endswith p s = true -> exists a, s = a ++ p.
Proof.
  unfold endswith. intros H. apply startswith_cut in H.
  exists (rev (skipn (length (rev p)) (rev s))).
  apply (f_equal (@rev char)) in H.
  now rewrite rev_involutive, rev_app_distr, rev_involutive in H.
Qed.

Lemma matches_ci_plain (lower x : char) :
  In lower [106; 115; 111; 110]%N -> matches_ci lower x = true ->
  brace_step x = 0%Z.
Proof.
  intros Hl H. unfold brace_step.
  destruct (N.eqb_spec x LBRACE) as [->|_].
  { simpl in Hl. decompose [or] Hl; subst; try contradiction;
      vm_compute in H; discriminate. }
  destruct (N.eqb_spec x RBRACE) as [->|_]; [|reflexivity].
  simpl in Hl. decompose [or] Hl; subst; try contradiction;
    vm_compute in H; discriminate.
Qed.

Lemma trimmed_sub_open_fence (s : str) : trimmed s (sub_open_fence s).
Proof.
  unfold sub_open_fence.
  destruct (startswith (lit "```") s) eqn:E; [|apply trimmed_refl].
  apply startswith_cut in E. change (length (lit "```")) with 3 in E.
  assert (Hfence : trimmed s (skipn 3 s)).
  { exists (lit "```"), []. rewrite app_nil_r. split; [exact E|].
    split; [plain_lit | constructor]. }
  destruct (skipn 3 s) as [|j [|s1 [|o [|n rest]]]]; try exact Hfence.
  destruct (matches_ci 106%N j && matches_ci 115%N s1
            && matches_ci 111%N o && matches_ci 110%N n) eqn:M;
    [|exact Hfence].
  apply andb_prop in M as [M Mn]. apply andb_prop in M as [M Mo].
  apply andb_prop in M as [Mj Ms].
  exists (lit "```" ++ [j; s1; o; n]), []. rewrite app_nil_r.
  split; [rewrite E at 1; reflexivity|]. split; [|constructor].
  apply plain_app; [plain_lit|].
  repeat constructor;
    (eapply matches_ci_plain; [|eassumption]; simpl; tauto).
Qed.

Lemma trimmed_sub_close_fence (u : str) :
  trimmed (strip u) (sub_close_fence (strip u)).
Proof.
  unfold sub_close_fence. remember (strip u) as s eqn:Es.
  destruct (endswith (lit "```") s) eqn:E1.
  - apply endswith_cut in E1 as (a & Ha).
    exists [], (lit "```"). split; [|split; [constructor | plain_lit]].
    clear Es. subst s. rewrite length_app.
    change (length (lit "```")) with 3.
    replace (length a + 3 - 3) with (length a) by lia.
    rewrite firstn_app, Nat.sub_diag, firstn_all. simpl.
    now rewrite app_nil_r.
  - destruct (endswith (lit "```" ++ [NEWLINE]) s) eqn:E2;
      [|apply trimmed_refl].
    exfalso. apply endswith_cut in E2 as (a & Ha). rewrite Es in Ha.
    rewrite app_assoc in Ha. apply strip_last in Ha. discriminate.
Qed.

(** Lines 77 to 79 cut a part off each end of the text, and what they cut
    off holds no brace. *)
Lemma trimmed_strip_fences (text : str) : trimmed text (strip_fences text).
Proof.
  unfold strip_fences.
  eapply trimmed_trans; [apply trimmed_strip|].
  eapply trimmed_trans; [apply trimmed_sub_open_fence|].
  eapply trimmed_trans; [apply trimmed_strip|].
  eapply trimmed_trans; [apply trimmed_sub_close_fence|].
  apply trimmed_strip.
Qed.

(** The first opening brace of a text lies in what trimming leaves. *)
Lemma trimmed_first_brace (text mid B R : str) :
  trimmed text mid -> text = B ++ LBRACE :: R -> ~ In LBRACE B ->
  exists B' R' pre post,
    mid = B' ++ LBRACE :: R' /\ ~ In LBRACE B'
    /\ B = pre ++ B' /\ R = R' ++ post /\ plain post.
Proof.
  intros (pre & post & Ht & Hpre & Hpost) HB Hb.
  assert (Hin : In LBRACE mid).
  { assert (H : In LBRACE text)
      by (rewrite HB; apply in_or_app; right; now left).
    rewrite Ht in H. apply in_app_or in H as [H|H].
    - now apply plain_no_lbrace in Hpre.
    - apply in_app_or in H as [H|H]; [exact H|].
      now apply plain_no_lbrace in Hpost. }
  destruct (first_occurrence _ _ Hin) as (B' & R' & Hmid & Hb').
  exists B', R', pre, post.
  assert (Hcut : B ++ LBRACE :: R = (pre ++ B') ++ LBRACE :: (R' ++ post)).
  { rewrite <- HB, Ht, Hmid. rewrite <- !app_assoc. reflexivity. }
  destruct (first_occurrence_unique _ _ _ _ _ Hcut Hb) as [HB' HR'].
  { intros H. apply in_app_or in H as [H|H]; [|auto].
    now apply plain_no_lbrace in Hpre. }
  repeat split; auto.
Qed.

Lemma firstn_app_short (n : nat) (a b : str) :
  n <= length a -> firstn n (a ++ b) = firstn n a.
Proof.
  intros Hn. rewrite firstn_app. replace (n - length a) with 0 by lia.
  simpl. apply app_nil_r.
Qed.

Lemma trimmed_never_closed (text mid : str) :
  trimmed text mid -> never_closed text -> never_closed mid.
Proof.
  intros Ht (B & R & HB & Hb & Hnz).
  destruct (trimmed_first_brace _ _ _ _ Ht HB Hb)
    as (B' & R' & pre & post & Hmid & Hb' & _ & HR & _).
  exists B', R'. repeat split; auto. intros n Hn.
  rewrite <- (firstn_app_short n (LBRACE :: R') post) by lia.
  change ((LBRACE :: R') ++ post) with (LBRACE :: (R' ++ post)).
  rewrite <- HR. apply Hnz. subst R. simpl in *. rewrite length_app. lia.
Qed.

Lemma trimmed_candidate (text mid c : str) :
  trimmed text mid -> candidate text c -> candidate mid c.
Proof.
  intros Ht (B & A & HB & Hb & (r & ->) & Hz & Hmin).
  change (B ++ (LBRACE :: r) ++ A) with (B ++ LBRACE :: (r ++ A)) in HB.
  destruct (trimmed_first_brace _ _ _ _ Ht HB Hb)
    as (B' & R' & pre & post & Hmid & Hb' & _ & HR & Hpost).
  assert (Hblock : balanced_block (LBRACE :: r)) by (repeat split; eauto).
  destruct (app_eq_app _ _ _ _ HR) as (l & [[Hr Hp]|[HR' HA]]).
  - destruct l as [|x l].
    + rewrite app_nil_r in Hr. subst R'. exists B', [].
      rewrite app_nil_r. auto.
    + exfalso. apply (Hmin (length (LBRACE :: R'))).
      * subst r. simpl. rewrite length_app. simpl. lia.
      * subst r. change (LBRACE :: R' ++ x :: l)
          with ((LBRACE :: R') ++ x :: l) in *.
        rewrite firstn_app, Nat.sub_diag, firstn_all. simpl firstn.
        rewrite app_nil_r. rewrite brace_depth_app in Hz.
        assert (Hl : plain (x :: l)).
        { subst post. unfold plain in Hpost.
          now apply (Forall_app _ (x :: l) A) in Hpost as [Hl _]. }
        rewrite (plain_depth _ Hl) in Hz. lia.
  - exists B', l. subst R'. auto.
Qed.

(** The three outcomes of the search, read on the text as it came. *)
Lemma extract_json_raw_no_brace (text : str) :
  ~ In LBRACE text ->
  extract_json text
  = Raise (ValueError (lit "No JSON detected in LLM response")).
Proof.
  intros Hno. apply extract_json_no_brace.
  destruct (trimmed_strip_fences text) as (pre & post & Ht & _).
  intros Hin. apply Hno. rewrite Ht.
  apply in_or_app; right. apply in_or_app; now left.
Qed.

Lemma extract_json_raw_never_closed (text : str) :
  never_closed text ->
  extract_json text = Raise (ValueError (lit "Could not match complete JSON")).
Proof.
  intros H. apply extract_json_never_closed.
  exact (trimmed_never_closed _ _ (trimmed_strip_fences text) H).
Qed.

Lemma extract_json_raw_candidate (text c : str) :
  candidate text c -> extract_json text = json_loads c.
Proof.
  intros H. apply extract_json_candidate.
  exact (trimmed_candidate _ _ _ (trimmed_strip_fences text) H).
Qed.

(** The trimming and the fence stripping of lines 77 to 79 never change
    what [extract_json] returns or raises: its three outcomes can be read
    on the text as it came.  With no opening brace in the text it raises
    "No JSON detected in LLM response"; when the depth never comes back to
    zero from the first opening brace on, "Could not match complete JSON";
    and when the text has a candidate block, the result is that of
    [json.loads] on the block. *)
Theorem extract_json_trimming_plays_no_part (text : str) :
  (~ In LBRACE text ->
   extract_json text
   = Raise (ValueError (lit "No JSON detected in LLM response")))
  /\ (never_closed text ->
      extract_json text
      = Raise (ValueError (lit "Could not match complete JSON")))
  /\ (forall c, candidate text c -> extract_json text = json_loads c).
Proof.
  split; [|split].
  - apply extract_json_raw_no_brace.
  - apply extract_json_raw_never_closed.
  - apply extract_json_raw_candidate.
Qed.

(** A fence that is not at the start of the text is not stripped, and the
    result is the same. *)
Example extract_json_fence_after_prose :
  extract_json (lit "Here: ```json" ++ [NEWLINE] ++ jlit "{'a':1}"
                  ++ [NEWLINE] ++ lit "``` done")
  = Ok (JObj [(lit "a", JInt 1)]).
Proof. vm_compute. reflexivity. Qed.

(** Text with no opening brace in front of the text changes nothing: the
    result of [extract_json], value or exception, is the same.  A closing
    brace, a fence or prose in front play no part. *)
Theorem extract_json_ignores_prefix (p text : str) :
  ~ In LBRACE p -> extract_json (p ++ text) = extract_json text.
Proof.
  intros Hp. destruct (search_cases text) as [Hno|[Hnc|(c & Hc)]].
  - rewrite (extract_json_raw_no_brace text Hno).
    apply extract_json_raw_no_brace.
    intros H. apply in_app_or in H as [H|H]; auto.
  - rewrite (extract_json_raw_never_closed text Hnc).
    apply extract_json_raw_never_closed.
    destruct Hnc as (B & R & -> & Hb & Hnz). exists (p ++ B), R.
    split; [now rewrite app_assoc|]. split; [|exact Hnz].
    intros H. apply in_app_or in H as [H|H]; auto.
  - rewrite (extract_json_raw_candidate text c Hc).
    apply extract_json_raw_candidate.
    destruct Hc as (B & A & -> & Hb & Hc). exists (p ++ B), A.
    split; [now rewrite app_assoc|]. split; [|exact Hc].
    intros H. apply in_app_or in H as [H|H]; auto.
Qed.

Lemma extract_json_ignores_prefix_witness :
  extract_json (lit "Sure } ``` " ++ lit "```json" ++ jlit "{'a':1}")
  = extract_json (lit "```json" ++ jlit "{'a':1}").
Proof.
  apply (extract_json_ignores_prefix (lit "Sure } ``` ")).
  vm_compute. intuition discriminate.
Defined.

(** Once [extract_json] returns a value for a text, it returns the same
    value for the text followed by anything: what comes after the block
    that closed is not read. *)
Theorem extract_json_ignores_suffix (text s : str) (v : json) :
  extract_json text = Ok v -> extract_json (text ++ s) = Ok v.
Proof.
  intros H. destruct (search_cases text) as [Hno|[Hnc|(c & Hc)]].
  - rewrite (extract_json_raw_no_brace text Hno) in H. discriminate.
  - rewrite (extract_json_raw_never_closed text Hnc) in H. discriminate.
  - rewrite (extract_json_raw_candidate text c Hc) in H. rewrite <- H.
    apply extract_json_raw_candidate.
    destruct Hc as (B & A & -> & Hb & Hc). exists B, (A ++ s).
    split; [now rewrite <- !app_assoc | auto].
Qed.

Lemma extract_json_ignores_suffix_witness :
  extract_json (jlit "{'a':1}" ++ jlit "} and {'b': ")
  = Ok (JObj [(lit "a", JInt 1)]).
Proof.
  apply (extract_json_ignores_suffix (jlit "{'a':1}")).
  vm_compute. reflexivity.
Defined.

(* ===================================================================== *)
(** * normalize_suggestions: further properties *)
(* ===================================================================== *)

Lemma lit_inj (a b : string) : lit a = lit b -> a = b.
Proof.
  unfold lit. intros H. apply (f_equal (map ascii_of_N)) in H.
  rewrite !map_map in H.
  rewrite !(map_ext _ (fun x => x) ascii_N_embedding), !map_id in H.
  apply (f_equal string_of_list_ascii) in H.
  now rewrite !string_of_list_ascii_of_string in H.
Qed.

Lemma to_int_proper (z : Z) :
  Z.to_int z <> Decimal.Pos Decimal.Nil /\ Z.to_int z <> Decimal.Neg Decimal.Nil.
Proof.
  destruct z as [|p|p]; simpl; split; try discriminate;
    intros H; injection H as H;
    now apply DecimalPos.Unsigned.to_uint_nonnil in H.
Qed.

Lemma str_of_Z_inj (a b : Z) : str_of_Z a = str_of_Z b -> a = b.
Proof.
  unfold str_of_Z. intros H. apply lit_inj in H.
  apply (f_equal NilZero.int_of_string) in H.
  destruct (to_int_proper a) as [Ha1 Ha2], (to_int_proper b) as [Hb1 Hb2].
  rewrite !NilZero.isi in H by assumption.
  injection H as H. now apply DecimalZ.to_int_inj.
Qed.

Lemma fallback_id_inj (i j : nat) : fallback_id i = fallback_id j -> i = j.
Proof.
  intros H. assert (E : Z.of_nat (S i) = Z.of_nat (S j)); [|lia].
  apply str_of_Z_inj. unfold fallback_id, str_of_nat in H.
  injection H as H. exact H.
Qed.

Section MoreSuggestions.

Variable isprintable : char -> bool.

(** A canonical suggestion is normalised to itself. *)
Lemma suggestion_spec_fixed (i : nat) (id title detail : json) :
  suggestion_spec isprintable i (suggestion id title detail)
  = suggestion id title detail.
Proof. reflexivity. Qed.

Lemma entries_from_fixed (items : list json) : forall i,
  Forall is_suggestion items -> entries_from isprintable i items = items.
Proof.
  induction items as [|x items IH]; intros i H; [reflexivity|].
  inversion H as [|? ? (id & title & detail & ->) Hrest]; subst.
  cbn [entries_from]. rewrite suggestion_spec_fixed. f_equal. now apply IH.
Qed.

(** What [normalize_suggestions] returns when it returns. *)
Lemma normalize_suggestions_ok (v : json) (out : list json) :
  normalize_suggestions isprintable v = Ok out ->
  exists items, py_iter v = Ok items
                /\ out = entries_from isprintable 0 items.
Proof.
  unfold normalize_suggestions.
  destruct (py_iter v) as [items|e] eqn:E; cbn [bind]; [|discriminate].
  rewrite normalize_suggestions_loop_spec. intros H; inversion H. eauto.
Qed.

(** Normalising twice is normalising once: on the list it returned,
    [normalize_suggestions] returns that list again. *)
Theorem normalize_suggestions_idempotent (v : json) (out : list json) :
  normalize_suggestions isprintable v = Ok out ->
  normalize_suggestions isprintable (JList out) = Ok out.
Proof.
  intros H. destruct (normalize_suggestions_ok _ _ H) as (items & _ & ->).
  rewrite (normalize_suggestions_iterable isprintable (JList _) _ eq_refl).
  f_equal. apply entries_from_fixed, entries_are_suggestions.
Qed.

(** The ids of the entries for items that bring no id of their own. *)
Lemma entries_from_ids (items : list json) : forall i,
  Forall (fun x => field (lit "id") x = None) items ->
  map (field (lit "id")) (entries_from isprintable i items)
  = map (fun k => Some (fallback_id k)) (seq i (length items)).
Proof.
  induction items as [|x items IH]; intros i H; [reflexivity|].
  inversion H as [|? ? Hx Hrest]; subst.
  cbn [entries_from length seq map]. rewrite (IH (S i) Hrest). f_equal.
  destruct x; try reflexivity.
  change (field (lit "id") (suggestion_spec isprintable i (JObj kvs)))
    with (Some (or_else (dict_get kvs (lit "id")) (fallback_id i))).
  unfold field in Hx. now rewrite Hx.
Qed.

(** When no item brings an id of its own (strings, other values, objects
    without an ["id"]), the ids of the entries are pairwise distinct. *)
Theorem normalize_suggestions_fresh_ids (xs : list json) :
  Forall (fun x => field (lit "id") x = None) xs ->
  exists out,
    normalize_suggestions isprintable (JList xs) = Ok out
    /\ NoDup (map (field (lit "id")) out).
Proof.
  intros H. exists (entries_from isprintable 0 xs). split.
  - now apply normalize_suggestions_iterable.
  - rewrite (entries_from_ids xs 0 H).
    generalize 0 as i. induction (length xs) as [|n IH]; intros i; simpl;
      constructor; [|apply IH].
    intros Hin. apply in_map_iff in Hin as (k & Hk & Hin).
    assert (E : k = i) by (apply fallback_id_inj; congruence). subst k.
    apply in_seq in Hin. lia.
Qed.

(** A [suggestions] that is a string gives one entry per character, and
    one that is an object gives one entry per key, with the key as title
    and detail: the values of the object are not read. *)
Theorem normalize_suggestions_not_a_list :
  (forall s : str,
     exists out,
       normalize_suggestions isprintable (JStr s) = Ok out
       /\ length out = length s
       /\ forall i c, nth_error s i = Some c ->
            nth_error out i
            = Some (suggestion (fallback_id i) (JStr [c]) (JStr [c])))
  /\ (forall d : dict,
        exists out,
          normalize_suggestions isprintable (JObj d) = Ok out
          /\ length out = length d
          /\ forall i k v, nth_error d i = Some (k, v) ->
               nth_error out i
               = Some (suggestion (fallback_id i) (JStr (firstn 40 k))
                         (JStr k))).
Proof.
  split.
  - intros s. eexists. split; [now apply normalize_suggestions_iterable|].
    split; [now rewrite entries_from_length, length_map|].
    intros i c Hc. rewrite entries_from_nth, nth_error_map, Hc. reflexivity.
  - intros d. eexists. split; [now apply normalize_suggestions_iterable|].
    split; [now rewrite entries_from_length, length_map|].
    intros i k v Hk. rewrite entries_from_nth, nth_error_map, Hk. reflexivity.
Qed.

End MoreSuggestions.

Lemma normalize_suggestions_idempotent_witness :
  normalize_suggestions (fun _ => false)
    (JList [suggestion (JStr (lit "S1")) (JStr (lit "fix bug"))
              (JStr (lit "fix bug"));
            suggestion (JInt 7) (JStr (lit "x")) (JStr (lit ""));
            suggestion (JStr (lit "S3")) (JStr (lit "Suggestion"))
              (JStr (lit "5"))])
  = Ok [suggestion (JStr (lit "S1")) (JStr (lit "fix bug"))
          (JStr (lit "fix bug"));
        suggestion (JInt 7) (JStr (lit "x")) (JStr (lit ""));
        suggestion (JStr (lit "S3")) (JStr (lit "Suggestion"))
          (JStr (lit "5"))].
Proof.
  apply (normalize_suggestions_idempotent (fun _ => false)
           (JList [JStr (lit "fix bug");
                   JObj [(lit "id", JInt 7); (lit "title", JStr (lit "x"))];
                   JInt 5])).
  reflexivity.
Defined.

Lemma normalize_suggestions_fresh_ids_witness :
  exists out,
    normalize_suggestions (fun _ => false)
      (JList [JStr (lit "a"); JObj [(lit "title", JStr (lit "b"))]; JNull])
    = Ok out
    /\ NoDup (map (field (lit "id")) out).
Proof.
  apply (normalize_suggestions_fresh_ids (fun _ => false)
           [JStr (lit "a"); JObj [(lit "title", JStr (lit "b"))]; JNull]).
  repeat constructor.
Defined.

(* ===================================================================== *)
(** * normalize_metrics: further properties *)
(* ===================================================================== *)

Lemma dict_get_absent (d : dict) (k : str) :
  ~ In k (keys d) -> dict_get d k = None.
Proof.
  induction d as [|[k' v] d IH]; intros H; [reflexivity|].
  cbn [dict_get]. rewrite str_eqb_neq by (intros ->; apply H; now left).
  apply IH. intros Hin. apply H. now right.
Qed.

(** Without the five keys it reads, [normalize_metrics] returns the
    defaults. *)
Lemma normalize_metrics_absent (raw : dict) (language : json) (code : str) :
  (forall k, In k raw_metrics_keys -> ~ In k (keys raw)) ->
  normalize_metrics (JObj raw) language code
  = Ok (default_metrics language (newlines code + 1)).
Proof.
  intros H. unfold normalize_metrics, py_get, dict_get_default. cbn [bind].
  rewrite !dict_get_absent by (apply H; vm_compute; tauto).
  now rewrite count_newlines.
Qed.

(** The response shape of the prompt is itself a JSON object that
    [extract_json] finds, and the keys of its [metrics] are canonical
    keys. *)
Example prompt_shape_is_extracted :
  exists shape m,
    extract_json Ollama.SYSTEM_INSTRUCTION = Ok (JObj shape)
    /\ dict_get shape (lit "metrics") = Some (JObj m)
    /\ keys m = prompt_metrics_keys
    /\ incl prompt_metrics_keys metrics_keys.
Proof.
  eexists; eexists. split; [vm_compute; reflexivity|].
  split; [vm_compute; reflexivity|]. split; [vm_compute; reflexivity|].
  intros k Hk. vm_compute in Hk. vm_compute. tauto.
Qed.

(** The canonical keys are not the keys [normalize_metrics] reads.  For
    metrics whose keys are all canonical ([language], [loc_before],
    [loc_after], [reduction], [redundant_removed], [security_improved]),
    as the prompt asks the model to write them, what the model wrote is
    dropped: the result is the defaults (the line count of the request's
    code twice, a reduction of 0, null and false). *)
Theorem normalize_metrics_drops_canonical_keys
    (raw : dict) (language : json) (code : str) :
  incl (keys raw) metrics_keys ->
  normalize_metrics (JObj raw) language code
  = Ok (default_metrics language (newlines code + 1)).
Proof.
  intros H. apply normalize_metrics_absent. intros k Hk Hin.
  apply H in Hin. revert Hk.
  unfold metrics_keys in Hin. simpl In in Hin.
  decompose [or] Hin; subst; try contradiction;
    vm_compute; intuition discriminate.
Qed.

Lemma normalize_metrics_drops_canonical_keys_witness :
  normalize_metrics (JObj prompt_shaped_metrics) (JStr (lit "c"))
    [97; 10; 98]%N
  = Ok (default_metrics (JStr (lit "c")) (newlines [97; 10; 98]%N + 1)).
Proof.
  apply normalize_metrics_drops_canonical_keys.
  intros k Hk. vm_compute in Hk. vm_compute. tauto.
Defined.

(** The newlines of lines joined by newlines. *)
Lemma newlines_join (lines : list str) :
  Forall (fun l => ~ In NEWLINE l) lines ->
  newlines (join [NEWLINE] lines) = length lines - 1.
Proof.
  unfold newlines. induction lines as [|l rest IH]; intros H; [reflexivity|].
  inversion H as [|? ? Hl Hrest]; subst.
  destruct rest as [|l2 rest].
  - simpl. now apply count_occ_not_In.
  - change (join [NEWLINE] (l :: l2 :: rest))
      with (l ++ [NEWLINE] ++ join [NEWLINE] (l2 :: rest)).
    rewrite !count_occ_app. change (@count_occ char) with (@count_occ N).
    rewrite (IH Hrest), (proj1 (count_occ_not_In N.eq_dec l NEWLINE) Hl).
    simpl. lia.
Qed.

(** The default line count is the number of lines of the code: for a code
    made of one or more lines, none of which holds a newline, joined by
    newlines, [loc_before] and [loc_after] default to the number of
    lines. *)
Theorem normalize_metrics_counts_lines (lines : list str) (language : json) :
  lines <> [] ->
  Forall (fun l => ~ In NEWLINE l) lines ->
  normalize_metrics (JObj []) language (join [NEWLINE] lines)
  = Ok (default_metrics language (length lines)).
Proof.
  intros Hne Hlines.
  rewrite normalize_metrics_absent by (intros k _ []).
  rewrite (newlines_join lines Hlines).
  destruct lines; [congruence|]. simpl length.
  now replace (S (length lines) - 1 + 1) with (S (length lines)) by lia.
Qed.

Lemma normalize_metrics_counts_lines_witness :
  normalize_metrics (JObj []) JNull
    (join [NEWLINE] [lit "int main(){"; lit "  return 0;"; lit "}"; lit ""])
  = Ok (default_metrics JNull 4).
Proof.
  apply (normalize_metrics_counts_lines
           [lit "int main(){"; lit "  return 0;"; lit "}"; lit ""] JNull).
  - discriminate.
  - repeat constructor; vm_compute; intuition discriminate.
Defined.

(* ===================================================================== *)
(** * POST /optimize: what every response looks like *)
(* ===================================================================== *)

(** What [normalize_metrics] returns when it returns. *)
Lemma normalize_metrics_ok (v language : json) (code : str) (metrics : json) :
  normalize_metrics v language code = Ok metrics ->
  exists m, metrics = JObj m /\ keys m = metrics_keys
            /\ dict_get m (lit "language") = Some language.
Proof.
  destruct v; try discriminate.
  unfold normalize_metrics, py_get. cbn [bind].
  intros H; inversion H. eexists. repeat split; reflexivity.
Qed.

Section MoreHandler.

Variable isprintable : char -> bool.
Variable call_ollama : json -> str -> result str.

(** The three ways in which the handler returns. *)
Lemma optimize_inv (d : dict) (body : json) (status : Z) :
  optimize isprintable call_ollama (JObj d) = Ok (body, status) ->
  let language := dict_get_default d (lit "language") JNull in
  (body = JObj [(lit "error", JStr (lit "`code` must be a string"))]
   /\ status = 400%Z)
  \/ (exists e,
        body = JObj [(lit "error", JStr (lit "LLM error: " ++ exn_str e))]
        /\ status = 500%Z)
  \/ (exists code raw parsed,
        dict_get_default d (lit "code") JNull = JStr code
        /\ call_ollama language code = Ok raw
        /\ extract_json raw = Ok (JObj parsed)
        /\ finish isprintable (JObj parsed) language code = Ok (body, status)).
Proof.
  unfold optimize, py_get. cbn [bind].
  destruct (dict_get_default d (lit "code") JNull) as [| | | |code| |] eqn:Ec;
    try (intros H; inversion H; left; split; reflexivity).
  destruct (call_ollama (dict_get_default d (lit "language") JNull) code)
    as [raw|e] eqn:Ecall; cbn [bind].
  - destruct (extract_json raw) as [parsed|e] eqn:Eraw.
    + intros H. right; right.
      destruct parsed as [| | | | | |parsed]; try (simpl in H; discriminate).
      exists code, raw, parsed. repeat split; auto.
    + intros H; inversion H. right; left. exists e. now split.
  - intros H; inversion H. right; left. exists e. now split.
Qed.

(** Every response of the handler has one of three forms.  Status 400
    with the fixed error body; status 500 with an error body that starts
    with "LLM error: "; or status 200 with a complete body: an
    [optimized_code], a list of [{ id, title, detail }] suggestions, and
    metrics with the six canonical keys whose [language] is the request's
    [language] (null when the request has none).  No status 200 carries
    less. *)
Theorem optimize_returns (d : dict) (body : json) (status : Z) :
  optimize isprintable call_ollama (JObj d) = Ok (body, status) ->
  (status = 400%Z
   /\ body = JObj [(lit "error", JStr (lit "`code` must be a string"))])
  \/ (status = 500%Z
      /\ exists e,
           body = JObj [(lit "error", JStr (lit "LLM error: " ++ exn_str e))])
  \/ (status = 200%Z
      /\ exists b optimized_code suggestions m,
           body = JObj b
           /\ dict_get b (lit "optimized_code") = Some optimized_code
           /\ dict_get b (lit "suggestions") = Some (JList suggestions)
           /\ Forall is_suggestion suggestions
           /\ dict_get b (lit "metrics") = Some (JObj m)
           /\ keys m = metrics_keys
           /\ dict_get m (lit "language")
              = Some (dict_get_default d (lit "language") JNull)).
Proof.
  intros H. destruct (optimize_inv _ _ _ H)
    as [(-> & ->)|[(e & -> & ->)|(code & raw & parsed & _ & _ & _ & Hf)]].
  - left; split; reflexivity.
  - right; left; split; eauto.
  - right; right.
    destruct (finish_ok _ _ _ _ _ _ Hf)
      as (suggestions & metrics & Hs & Hm & -> & ->).
    destruct (normalize_suggestions_ok _ _ _ Hs) as (items & _ & ->).
    destruct (normalize_metrics_ok _ _ _ _ Hm) as (m & -> & Hkeys & Hlang).
    split; [reflexivity|].
    eexists _, _, _, m. split; [reflexivity|]. repeat split.
    + rewrite !dict_get_set_other by keys_differ.
      rewrite !dict_get_setdefault_other by keys_differ.
      apply dict_get_setdefault_same.
    + rewrite dict_get_set_other by keys_differ. apply dict_get_set_same.
    + apply entries_are_suggestions.
    + apply dict_get_set_same.
    + exact Hkeys.
    + exact Hlang.
Qed.

(** What the model's object holds under other keys than [suggestions] and
    [metrics] reaches the client as it is: in a response of status 200,
    every key of the extracted object other than these two has the value
    the model gave it, [optimized_code] included, and a key that is
    neither of the three canonical ones is in the response only if the
    model wrote it. *)
Theorem optimize_keeps_other_keys (d : dict) (body : json) :
  optimize isprintable call_ollama (JObj d) = Ok (body, 200%Z) ->
  exists code raw parsed b,
    dict_get_default d (lit "code") JNull = JStr code
    /\ call_ollama (dict_get_default d (lit "language") JNull) code = Ok raw
    /\ extract_json raw = Ok (JObj parsed)
    /\ body = JObj b
    /\ (forall k v, k <> lit "suggestions" -> k <> lit "metrics" ->
          dict_get parsed k = Some v -> dict_get b k = Some v)
    /\ (forall k, k <> lit "optimized_code" -> k <> lit "suggestions" ->
          k <> lit "metrics" -> dict_get b k = dict_get parsed k).
Proof.
  intros H. destruct (optimize_inv _ _ _ H)
    as [(_ & E)|[(e & _ & E)|(code & raw & parsed & Hc & Hr & Hp & Hf)]];
    try discriminate.
  destruct (finish_ok _ _ _ _ _ _ Hf)
    as (suggestions & metrics & _ & _ & -> & _).
  exists code, raw, parsed. eexists. repeat split; auto.
  - intros k v Hs Hm Hk.
    rewrite !dict_get_set_other by congruence.
    rewrite !dict_get_setdefault_other by congruence.
    destruct (str_eqb_spec (lit "optimized_code") k) as [<-|Hne].
    + rewrite dict_get_setdefault_same, Hk. reflexivity.
    + rewrite dict_get_setdefault_other by assumption. exact Hk.
  - intros k Hc' Hs Hm.
    rewrite !dict_get_set_other by congruence.
    now rewrite !dict_get_setdefault_other by congruence.
Qed.

End MoreHandler.

Lemma optimize_returns_witness :
  (200 = 400
   /\ JObj [(lit "a", JInt 1); (lit "optimized_code", JStr (lit "x"));
            (lit "suggestions", JList []);
            (lit "metrics", default_metrics JNull 1)]
      = JObj [(lit "error", JStr (lit "`code` must be a string"))])%Z
  \/ (200 = 500
      /\ exists e,
           JObj [(lit "a", JInt 1); (lit "optimized_code", JStr (lit "x"));
                 (lit "suggestions", JList []);
                 (lit "metrics", default_metrics JNull 1)]
           = JObj [(lit "error", JStr (lit "LLM error: " ++ exn_str e))])%Z
  \/ (200 = 200
      /\ exists b optimized_code suggestions m,
           JObj [(lit "a", JInt 1); (lit "optimized_code", JStr (lit "x"));
                 (lit "suggestions", JList []);
                 (lit "metrics", default_metrics JNull 1)]
           = JObj b
           /\ dict_get b (lit "optimized_code") = Some optimized_code
           /\ dict_get b (lit "suggestions") = Some (JList suggestions)
           /\ Forall is_suggestion suggestions
           /\ dict_get b (lit "metrics") = Some (JObj m)
           /\ keys m = metrics_keys
           /\ dict_get m (lit "language")
              = Some (dict_get_default [(lit "code", JStr (lit "x"))]
                        (lit "language") JNull))%Z.
Proof.
  apply (optimize_returns (fun _ => false) (fun _ _ => Ok (jlit "{'a': 1}"))
           [(lit "code", JStr (lit "x"))]).
  vm_compute. reflexivity.
Defined.

Lemma optimize_keeps_other_keys_witness :
  exists code raw parsed b,
    dict_get_default [(lit "code", JStr (lit "x"))] (lit "code") JNull
    = JStr code
    /\ @Ok exn str (jlit "{'note': 'n', 'optimized_code': 7}") = Ok raw
    /\ extract_json raw = Ok (JObj parsed)
    /\ JObj [(lit "note", JStr (lit "n")); (lit "optimized_code", JInt 7);
             (lit "suggestions", JList []);
             (lit "metrics", default_metrics JNull 1)]
       = JObj b
    /\ (forall k v, k <> lit "suggestions" -> k <> lit "metrics" ->
          dict_get parsed k = Some v -> dict_get b k = Some v)
    /\ (forall k, k <> lit "optimized_code" -> k <> lit "suggestions" ->
          k <> lit "metrics" -> dict_get b k = dict_get parsed k).
Proof.
  apply (optimize_keeps_other_keys (fun _ => false)
           (fun _ _ => Ok (jlit "{'note': 'n', 'optimized_code': 7}"))
           [(lit "code", JStr (lit "x"))]).
  vm_compute. reflexivity.
Defined.

(* ===================================================================== *)
(** * call_ollama: replies without a usable response *)
(* ===================================================================== *)

(** A request without [language] is sent with the text [None] in its
    place. *)
Example payload_without_language (isprintable : char -> bool) :
  Ollama.payload isprintable JNull (lit "x")
  = JObj [(lit "model", JStr (lit "qwen2.5-coder:7b"));
          (lit "prompt",
            JStr (Ollama.SYSTEM_INSTRUCTION ++ [NEWLINE]
                    ++ Ollama.USER_TEMPLATE_head ++ lit "None"
                    ++ [NEWLINE; NEWLINE] ++ lit "Code:" ++ [NEWLINE]
                    ++ lit "x" ++ [NEWLINE]));
          (lit "stream", JBool false)].
Proof. reflexivity. Qed.

Section Replies.

Variable isprintable : char -> bool.
Variable post : json -> result json.

(** When the server's reply is an object without a ["response"] key (an
    error object, say), the handler answers with status 500 and the
    message "LLM error: 'response'": the [KeyError] of [data["response"]]
    is caught, and its text is the key in quotes. *)
Theorem optimize_reply_without_response (d reply : dict) (code : str) :
  dict_get_default d (lit "code") JNull = JStr code ->
  post (Ollama.payload isprintable
          (dict_get_default d (lit "language") JNull) code)
  = Ok (JObj reply) ->
  dict_get reply (lit "response") = None ->
  optimize isprintable (Ollama.ask isprintable post) (JObj d)
  = Ok (JObj [(lit "error", JStr (lit "LLM error: 'response'"))], 500%Z).
Proof.
  intros Hcode Hpost Hmissing.
  rewrite (optimize_llm_error isprintable _ d code
             (CallError (lit "'response'")) Hcode); [reflexivity|].
  unfold Ollama.ask, Ollama.call_ollama. rewrite Hpost. cbn [bind].
  unfold Ollama.py_getitem. rewrite Hmissing. reflexivity.
Qed.

(** When the reply's ["response"] is not a string (null, a number, a list,
    an object), [call_ollama] returns it as it is and the first step of
    [extract_json] raises: the handler answers with status 500 and the
    message "LLM error: '<type>' object has no attribute 'strip'". *)
Theorem optimize_reply_not_text (d reply : dict) (code : str) (v : json) :
  dict_get_default d (lit "code") JNull = JStr code ->
  post (Ollama.payload isprintable
          (dict_get_default d (lit "language") JNull) code)
  = Ok (JObj reply) ->
  dict_get reply (lit "response") = Some v ->
  (forall s, v <> JStr s) ->
  Ollama.call_ollama isprintable post
    (dict_get_default d (lit "language") JNull) code = Ok v
  /\ optimize isprintable (Ollama.ask isprintable post) (JObj d)
     = Ok (JObj [(lit "error",
                   JStr (lit "LLM error: '" ++ lit (type_name v)
                           ++ lit "' object has no attribute 'strip'"))],
           500%Z).
Proof.
  intros Hcode Hpost Hv Hnot.
  assert (Hcall : Ollama.call_ollama isprintable post
                    (dict_get_default d (lit "language") JNull) code = Ok v).
  { unfold Ollama.call_ollama. rewrite Hpost. cbn [bind].
    unfold Ollama.py_getitem. now rewrite Hv. }
  split; [exact Hcall|].
  rewrite (optimize_llm_error isprintable _ d code
             (AttributeError (lit "'" ++ lit (type_name v)
                                ++ lit "' object has no attribute 'strip'"))
             Hcode); [reflexivity|].
  unfold Ollama.ask. rewrite Hcall. cbn [bind].
  destruct v; try reflexivity. exfalso. now apply (Hnot s).
Qed.

End Replies.

Lemma optimize_reply_without_response_witness :
  optimize (fun _ => false)
    (Ollama.ask (fun _ => false)
       (server (JObj [(lit "error", JStr (lit "model not found"))])))
    (JObj request_c)
  = Ok (JObj [(lit "error", JStr (lit "LLM error: 'response'"))], 500%Z).
Proof.
  apply (optimize_reply_without_response (fun _ => false)
           (server (JObj [(lit "error", JStr (lit "model not found"))]))
           request_c [(lit "error", JStr (lit "model not found"))]
           (lit "int main(){}")); reflexivity.
Defined.

Lemma optimize_reply_not_text_witness :
  Ollama.call_ollama (fun _ => false)
    (server (JObj [(lit "response", JNull)]))
    (dict_get_default request_c (lit "language") JNull) (lit "int main(){}")
  = Ok JNull
  /\ optimize (fun _ => false)
       (Ollama.ask (fun _ => false) (server (JObj [(lit "response", JNull)])))
       (JObj request_c)
     = Ok (JObj [(lit "error",
                   JStr (lit "LLM error: '" ++ lit (type_name JNull)
                           ++ lit "' object has no attribute 'strip'"))],
           500%Z).
Proof.
  apply (optimize_reply_not_text (fun _ => false)
           (server (JObj [(lit "response", JNull)]))
           request_c [(lit "response", JNull)] (lit "int main(){}") JNull);
    try reflexivity.
  discriminate.
Defined.

(* ===================================================================== *)
(** * POST /optimize: the exceptions the handler does not catch *)
(* ===================================================================== *)

Section Uncaught.

Variable isprintable : char -> bool.
Variable call_ollama : json -> str -> result str.

Lemma normalize_suggestions_raises (v : json) (e : exn) :
  normalize_suggestions isprintable v = Raise e
  <-> ~ iterable v
      /\ e = TypeError (lit "'" ++ lit (type_name v)
                          ++ lit "' object is not iterable").
Proof.
  split.
  - destruct v; try discriminate; intros H; inversion H; split; auto.
  - intros (Hv & ->). destruct v; simpl in Hv; try reflexivity;
      exfalso; now apply Hv.
Qed.

Lemma normalize_metrics_raises (v language : json) (code : str) (e : exn) :
  normalize_metrics v language code = Raise e
  <-> ~ is_object v
      /\ e = AttributeError (lit "'" ++ lit (type_name v)
                               ++ lit "' object has no attribute 'get'").
Proof.
  split.
  - destruct v; try discriminate; intros H; inversion H; split; auto.
  - intros (Hv & ->). destruct v; simpl in Hv; try reflexivity.
    exfalso; now apply Hv.
Qed.

(** Where the steps after extraction raise. *)
Lemma finish_raises (parsed : dict) (language : json) (code : str) (e : exn) :
  finish isprintable (JObj parsed) language code = Raise e
  <-> normalize_suggestions isprintable
        (or_else (dict_get parsed (lit "suggestions")) (JList [])) = Raise e
      \/ (iterable (or_else (dict_get parsed (lit "suggestions")) (JList []))
          /\ normalize_metrics
               (or_else (dict_get parsed (lit "metrics")) (JObj []))
               language code = Raise e).
Proof.
  set (p1 := dict_setdefault parsed (lit "optimized_code") (JStr code)).
  set (p2 := dict_setdefault p1 (lit "suggestions") (JList [])).
  set (p3 := dict_setdefault p2 (lit "metrics") (JObj [])).
  assert (Hs : dict_get p3 (lit "suggestions")
               = Some (or_else (dict_get parsed (lit "suggestions"))
                         (JList []))).
  { unfold p3. rewrite dict_get_setdefault_other by keys_differ.
    unfold p2. rewrite dict_get_setdefault_same.
    unfold p1. now rewrite dict_get_setdefault_other by keys_differ. }
  assert (Hm : dict_get p3 (lit "metrics")
               = Some (or_else (dict_get parsed (lit "metrics")) (JObj []))).
  { unfold p3. rewrite dict_get_setdefault_same.
    unfold p2. rewrite dict_get_setdefault_other by keys_differ.
    unfold p1. now rewrite dict_get_setdefault_other by keys_differ. }
  unfold finish. cbn [py_setdefault bind]. fold p1 p2 p3.
  unfold dict_get_default at 1. rewrite Hs.
  destruct (normalize_suggestions isprintable _) as [out|e'] eqn:Hout;
    cbn [bind].
  - unfold dict_get_default at 1.
    rewrite dict_get_set_other by keys_differ. rewrite Hm.
    assert (Hit : iterable (or_else (dict_get parsed (lit "suggestions"))
                              (JList []))).
    { destruct (or_else (dict_get parsed (lit "suggestions")) (JList []));
        try discriminate; exact I. }
    destruct (normalize_metrics _ language code) as [m|e''] eqn:Hmet;
      cbn [bind]; split.
    + discriminate.
    + intros [H|[_ H]]; discriminate.
    + intros H. right. split; [exact Hit | now inversion H].
    + intros [H|[_ H]]; [discriminate | now inversion H].
  - split.
    + intros H. left. now inversion H.
    + intros [H|[Hit _]]; [now inversion H|].
      apply normalize_suggestions_raises in Hout as [Hnot _]. contradiction.
Qed.

(** The handler ends in an exception it does not catch in these cases and
    in no other: the body of the request is not an object (the
    [AttributeError] of [data.get]); or the call and the extraction went
    through and, in the extracted object, [suggestions] cannot be iterated
    over (a [TypeError]) or, with [suggestions] fine, [metrics] is not an
    object (the [AttributeError] of [metrics.get]). *)
Theorem optimize_raises_iff (data : json) (e : exn) :
  optimize isprintable call_ollama data = Raise e
  <-> (~ is_object data
       /\ e = AttributeError (lit "'" ++ lit (type_name data)
                                ++ lit "' object has no attribute 'get'"))
      \/ exists d code raw parsed,
           data = JObj d
           /\ dict_get_default d (lit "code") JNull = JStr code
           /\ call_ollama (dict_get_default d (lit "language") JNull) code
              = Ok raw
           /\ extract_json raw = Ok (JObj parsed)
           /\ let suggestions :=
                or_else (dict_get parsed (lit "suggestions")) (JList []) in
              let metrics :=
                or_else (dict_get parsed (lit "metrics")) (JObj []) in
              (~ iterable suggestions
               /\ e = TypeError (lit "'" ++ lit (type_name suggestions)
                                   ++ lit "' object is not iterable"))
              \/ (iterable suggestions /\ ~ is_object metrics
                  /\ e = AttributeError
                           (lit "'" ++ lit (type_name metrics)
                              ++ lit "' object has no attribute 'get'")).
Proof.
  split.
  - intros H. destruct data as [| | | | | |d].
    1-6: left; split; [intros [] | now inversion H].
    right. unfold optimize, py_get in H. cbn [bind] in H.
    destruct (dict_get_default d (lit "code") JNull)
      as [| | | |code| |] eqn:Ec; try discriminate.
    destruct (call_ollama (dict_get_default d (lit "language") JNull) code)
      as [raw|e'] eqn:Ecall; cbn [bind] in H; [|discriminate].
    destruct (extract_json raw) as [parsed|e'] eqn:Eraw; [|discriminate].
    assert (Hobj : exists p, parsed = JObj p).
    { destruct (search_cases (strip_fences raw)) as [Hno|[Hnc|(c & Hc)]].
      - rewrite (extract_json_no_brace _ Hno) in Eraw. discriminate.
      - rewrite (extract_json_never_closed _ Hnc) in Eraw. discriminate.
      - rewrite (extract_json_candidate _ _ Hc) in Eraw.
        destruct Hc as (_ & _ & _ & _ & (r & ->) & _).
        exact (json_loads_brace_is_object _ _ Eraw). }
    destruct Hobj as (p & ->).
    exists d, code, raw, p.
    split; [reflexivity|]. split; [exact Ec|]. split; [exact Ecall|].
    split; [exact Eraw|].
    apply finish_raises in H as [H|[Hit H]].
    + left. now apply normalize_suggestions_raises in H.
    + right. apply normalize_metrics_raises in H as [Hm ->]. auto.
  - intros [(Hdata & ->)|(d & code & raw & parsed & -> & Hc & Hr & Hp & H)].
    + destruct data; simpl in Hdata; try reflexivity. exfalso; now apply Hdata.
    + unfold optimize, py_get. cbn [bind]. rewrite Hc, Hr. cbn [bind].
      rewrite Hp. apply finish_raises.
      destruct H as [(Hs & ->)|(Hit & Hm & ->)].
      * left. now apply normalize_suggestions_raises.
      * right. split; [exact Hit|]. now apply normalize_metrics_raises.
Qed.

End Uncaught.
